(** * Frontity data layer: [@frontity/wp-source] actions and
      [@frontity/tiny-router] actions

    A shallow embedding of
    - [wp-source/src/actions.ts]: the [fetch] and [init] actions, and
    - [tiny-router/src/actions.ts]: the [set] action,
    followed by the properties of the fetch state machine, of the handler
    registry built by [init], and of the router's [set] operation.

    JavaScript objects are finite maps from property names to values
    ([gmap string Value]); an absent key is the property being [undefined].
    The cache [state.source.data] is a finite map from links to such objects.
    An action that mutates the shared [state] becomes a function that takes
    the state and returns the new one.

    The cache holds its entries by value: it tells what the entry of each
    link holds, and it does not follow one object that is stored under two
    links, as the router's [init] does on the client. What is proved about
    [fetch] therefore speaks of the entry of the fetched link, of the links
    present in the cache and of the settings, not of the entries of other
    links. *)

From stdpp Require Import gmap strings list fin_maps pretty.
From Stdlib Require Import ZArith Ascii.

Set Warnings "-clear-no-such-hyp".

Open Scope string_scope.

(** ** JavaScript values and objects *)

(** The values stored in the properties of a data object. [VQuery] is the
    query object produced by the link parser. *)
Inductive Value :=
| VBool (b : bool)
| VNum (n : Z)
| VStr (s : string)
| VQuery (q : list (string * string)).

#[global] Instance Value_eq_dec : EqDecision Value.
Proof. solve_decision. Defined.

(** A property read: [None] is [undefined]. *)
Abbreviation Obj := (gmap string Value).

(** JavaScript truthiness of a property read. *)
Definition truthy (v : option Value) : bool :=
  match v with
  | None => false
  | Some (VBool b) => b
  | Some (VNum n) => negb (n =? 0)%Z
  | Some (VStr s) => negb (bool_decide (s = ""))
  | Some (VQuery _) => true
  end.

(** [x === true]. *)
Definition is_true_value (v : option Value) : bool :=
  bool_decide (v = Some (VBool true)).

(** [x === s] for a string [s]. *)
Definition is_string_value (v : option Value) (s : string) : bool :=
  bool_decide (v = Some (VStr s)).

(** Truthiness of an optional string ([undefined] and the empty string are
    falsy). *)
Definition truthy_str (s : option string) : bool :=
  match s with
  | Some s => negb (bool_decide (s = ""))
  | None => false
  end.

(** Truthiness of an optional boolean. *)
Definition truthy_bool (b : option bool) : bool := default false b.

(** [Object.assign(target, { k1: v1, ..., kn: vn })]: the properties are
    written from left to right, a later one overwriting an earlier one. *)
Definition assign (target : Obj) (props : list (string * Value)) : Obj :=
  foldl (λ o kv, <[kv.1 := kv.2]> o) target props.

(** The object literal [{ k1: v1, ..., kn: vn }]. *)
Definition literal (props : list (string * Value)) : Obj := assign ∅ props.

(** [array.push(x1, ..., xn)]. *)
Definition push {A : Type} (array : list A) (items : list A) : list A :=
  (array ++ items)%list.

(** [`${n}`] for an integer [n]. *)
Definition number_to_string (n : Z) : string := pretty n.

(** The character [U+0022]. *)
Definition dquote : string := String "034"%char EmptyString.

(** ** Types shared by the source package *)

(** The result of [parse(route)]. *)
Record RouteParams := {
  rp_route : string;
  rp_query : list (string * string);
  rp_page : Z;
  rp_queryString : string
}.

(** Parameters captured by a pattern. *)
Abbreviation Params := (gmap string string).

(** An entry of [libraries.source.handlers] or
    [libraries.source.redirections]. *)
Record Pattern (F : Type) := mkPattern {
  name : string;
  priority : Z;
  pattern : string;
  func : F
}.
Arguments mkPattern {F}.
Arguments name {F}.
Arguments priority {F}.
Arguments pattern {F}.
Arguments func {F}.

(** The object returned by [getMatch]: the matched entry's function and
    pattern, and the captured parameters. *)
Record Match (F : Type) := mkMatch {
  match_func : F;
  match_params : Params;
  match_pattern : string
}.
Arguments mkMatch {F}.
Arguments match_func {F}.
Arguments match_params {F}.
Arguments match_pattern {F}.

(** [ServerError] carries a numeric status and a status text. *)
Record ServerErrorData := mkServerError {
  se_message : string;
  se_status : Z;
  se_statusText : string
}.

Inductive Exn :=
| ServerError (e : ServerErrorData)
| TypeError (message : string)
| OtherError (message : string).

(** How a call ends. *)
Inductive Completion :=
| Normal
| Throw (e : Exn).

Record PostType := mkPostType {
  pt_type : string;
  pt_endpoint : string;
  pt_archive : option string
}.

Record Taxonomy := mkTaxonomy {
  tax_taxonomy : string;
  tax_endpoint : string;
  tax_postTypeEndpoint : option string;
  tax_params : option Params
}.

(** The part of [state] the two actions read or write:
    [state.frontity.options.sourceAuth] and the fields of [state.source]. *)
Record State := mkState {
  sourceAuth : option string;
  api : string;
  isWpCom : bool;
  auth : option string;
  subdirectory : option string;
  homepage : option string;
  postsPage : option string;
  categoryBase : option string;
  tagBase : option string;
  authorBase : option string;
  postTypes : list PostType;
  taxonomies : list Taxonomy;
  data : gmap string Obj
}.

(** [state.source.data[link] = d]. *)
Definition set_data (st : State) (link : string) (d : Obj) : State :=
  {| sourceAuth := sourceAuth st; api := api st; isWpCom := isWpCom st;
     auth := auth st; subdirectory := subdirectory st;
     homepage := homepage st; postsPage := postsPage st;
     categoryBase := categoryBase st; tagBase := tagBase st;
     authorBase := authorBase st; postTypes := postTypes st;
     taxonomies := taxonomies st; data := <[link := d]> (data st) |}.

(** [state.source.auth = a]. *)
Definition set_auth (st : State) (a : option string) : State :=
  {| sourceAuth := sourceAuth st; api := api st; isWpCom := isWpCom st;
     auth := a; subdirectory := subdirectory st;
     homepage := homepage st; postsPage := postsPage st;
     categoryBase := categoryBase st; tagBase := tagBase st;
     authorBase := authorBase st; postTypes := postTypes st;
     taxonomies := taxonomies st; data := data st |}.

(** The state without its cache: every field of [state] but
    [state.source.data]. *)
Definition settings (st : State) : State :=
  {| sourceAuth := sourceAuth st; api := api st; isWpCom := isWpCom st;
     auth := auth st; subdirectory := subdirectory st;
     homepage := homepage st; postsPage := postsPage st;
     categoryBase := categoryBase st; tagBase := tagBase st;
     authorBase := authorBase st; postTypes := postTypes st;
     taxonomies := taxonomies st; data := ∅ |}.

(** The argument object of a handler, without [state] and [libraries]. *)
Record HandlerCtx := mkCtx {
  ctx_link : string;
  ctx_route : string;
  ctx_params : Params;
  ctx_force : option bool
}.

(** A handler is awaited to completion: it may rewrite the state and either
    resolves or rejects. *)
Definition HandlerFunc : Type := HandlerCtx → State → Completion * State.

(** A redirection maps the captured parameters to the new route. *)
Definition RedirectionFunc : Type := Params → string.

(** [libraries.source]. [api_init] records the argument of the last
    [libraries.source.api.init] call. *)
Record Libraries := mkLibraries {
  handlers : list (Pattern HandlerFunc);
  redirections : list (Pattern RedirectionFunc);
  api_init : option (string * bool)
}.

(** Modelled from the spec: the type guard [isError] of [@frontity/source]
    is not under src/; an error entry is one whose [isError] flag is
    [true]. *)
Definition isError (d : Obj) : bool := is_true_value (d !! "isError").

(** Modelled from the spec: the type guard [isSearch] of [@frontity/source]
    is not under src/; a search entry is one whose [isSearch] flag is
    [true]. The value is the outcome of [isSearch(d) === true]. *)
Definition isSearch (d : Obj) : bool := is_true_value (d !! "isSearch").

(** A handler call made by [fetch]: the matched pattern, the argument it
    got, and the state it started from. *)
Record Invocation := mkInvocation {
  inv_pattern : string;
  inv_ctx : HandlerCtx;
  inv_state : State
}.

(** What one call of [fetch] does: how it ends, the state it leaves, and
    the handler calls it made. *)
Record FetchResult := mkFetchResult {
  outcome : Completion;
  final : State;
  invoked : list Invocation
}.

Record FetchOptions := mkFetchOptions {
  opt_force : option bool
}.

(** Line 28: [options ? options.force : false]. *)
Definition force_of (options : option FetchOptions) : option bool :=
  match options with
  | Some o => opt_force o
  | None => Some false
  end.

Module Source.
Section Actions.

(** Functions of [./libraries/route-utils] and [./libraries/get-match],
    which are not under src/. *)
Variable normalize : string → string.
Variable parse : string → RouteParams.
Variable getMatch : ∀ F : Type, string → list (Pattern F) → option (Match F).
Variable concatLink : list (option string) → string.

(** The status text [ServerError] stores when its constructor gets no third
    argument, as a function of the message. *)
Variable statusText_default : string → string.

(** *** [fetch] *)

(** [{ route: linkParams.route, link, query, page }] *)
Definition route_props (link : string) (linkParams : RouteParams)
  : list (string * Value) :=
  [("route", VStr (rp_route linkParams));
   ("link", VStr link);
   ("query", VQuery (rp_query linkParams));
   ("page", VNum (rp_page linkParams))].

(** Lines 36-43: the freshly initialized entry. *)
Definition init_data (link : string) (linkParams : RouteParams) : Obj :=
  literal ([("isFetching", VBool true); ("isReady", VBool false)]
           ++ route_props link linkParams).

(** Lines 31-59. The boolean tells whether [fetch] goes on to the handler
    ([true]) or returns early ([false]). *)
Definition fetch_begin (st : State) (link : string) (linkParams : RouteParams)
    (force : option bool) : State * bool :=
  match data st !! link with
  | Some d =>
    if truthy_bool force && isError d
    then (set_data st link (init_data link linkParams), true)
    else
      let d1 := assign d (route_props link linkParams) in
      let st1 := set_data st link d1 in
      if negb (truthy_bool force)
         && (truthy (d1 !! "isReady") || truthy (d1 !! "isFetching"))
      then (st1, false)
      else (set_data st1 link (<["isFetching" := VBool true]> d1), true)
  | None => (set_data st link (init_data link linkParams), true)
  end.

(** Lines 63-66: the route after the redirection step. *)
Definition redirect (route : string)
    (redirections : list (Pattern RedirectionFunc)) : string :=
  match getMatch RedirectionFunc route redirections with
  | Some redirection => match_func redirection (match_params redirection)
  | None => route
  end.

(** Line 69: the string the handlers are matched against. *)
Definition handler_path (linkParams : RouteParams)
    (redirections : list (Pattern RedirectionFunc)) : string :=
  redirect (rp_route linkParams) redirections ++ rp_queryString linkParams.

(** Lines 72-76. *)
Definition no_handler_error (link : string) : ServerErrorData :=
  let message :=
    "No handler has matched for the given link: " ++ dquote ++ link ++ dquote in
  {| se_message := message; se_status := 404;
     se_statusText := statusText_default message |}.

(** [state.source.subdirectory || "/"] *)
Definition subdirectory_or_root (st : State) : string :=
  match subdirectory st with
  | Some s => if bool_decide (s = "") then "/" else s
  | None => "/"
  end.

(** Lines 94-97, on the entry the handler left under [link]. *)
Definition is_home (pat : string) (d : Obj) (st : State) : bool :=
  negb (String.prefix "RegExp:" pat)
  && negb (isSearch d)
  && is_string_value (d !! "route") (normalize (subdirectory_or_root st)).

(** Lines 100-104: the properties merged into the entry on success. *)
Definition ready_props (isHome : bool) : list (string * Value) :=
  (if isHome then [("isHome", VBool true)] else [])
  ++ [("isFetching", VBool false); ("isReady", VBool true)].

(** Lines 79-88: the argument of the handler. *)
Definition handler_ctx (link : string) (handler : Match HandlerFunc)
    (force : option bool) : HandlerCtx :=
  {| ctx_link := link; ctx_route := link;
     ctx_params := match_params handler; ctx_force := force |}.

(** Lines 62-104, the body of [try]. Reading a property of
    [source.data[link]] when the handler has removed the entry is a
    [TypeError]. *)
Definition fetch_try (st : State) (libs : Libraries) (link : string)
    (linkParams : RouteParams) (force : option bool) : FetchResult :=
  match getMatch HandlerFunc (handler_path linkParams (redirections libs))
                 (handlers libs) with
  | None =>
    {| outcome := Throw (ServerError (no_handler_error link));
       final := st; invoked := [] |}
  | Some handler =>
    let ctx := handler_ctx link handler force in
    let call := {| inv_pattern := match_pattern handler; inv_ctx := ctx;
                   inv_state := st |} in
    match match_func handler ctx st with
    | (Throw e, st') =>
      {| outcome := Throw e; final := st'; invoked := [call] |}
    | (Normal, st') =>
      match data st' !! link with
      | None =>
        {| outcome := Throw (TypeError "source.data[link] is undefined");
           final := st'; invoked := [call] |}
      | Some d =>
        let isHome := is_home (match_pattern handler) d st' in
        {| outcome := Normal;
           final := set_data st' link (assign d (ready_props isHome));
           invoked := [call] |}
      end
    end
  end.

(** Lines 110-121. *)
Definition error_data (e : ServerErrorData) (link : string)
    (linkParams : RouteParams) : Obj :=
  literal ([("isError", VBool true);
            ("isReady", VBool true);
            ("isFetching", VBool false);
            ("is" ++ number_to_string (se_status e), VBool true);
            ("errorStatus", VNum (se_status e));
            ("errorStatusText", VStr (se_statusText e))]
           ++ route_props link linkParams).

(** The property names of the error record. *)
Definition error_keys (e : ServerErrorData) : list string :=
  ["isError"; "isReady"; "isFetching"; "is" ++ number_to_string (se_status e);
   "errorStatus"; "errorStatusText"; "route"; "link"; "query"; "page"].

(** Lines 105-126, the [catch] clause applied to the result of the [try]
    body. *)
Definition fetch_catch (r : FetchResult) (link : string)
    (linkParams : RouteParams) : FetchResult :=
  match outcome r with
  | Normal => r
  | Throw (ServerError e) =>
    {| outcome := Normal;
       final := set_data (final r) link (error_data e link linkParams);
       invoked := invoked r |}
  | Throw e => {| outcome := Throw e; final := final r; invoked := invoked r |}
  end.

(** The [fetch] action. *)
Definition fetch (st : State) (libs : Libraries) (route : string)
    (options : option FetchOptions) : FetchResult :=
  let link := normalize route in
  let linkParams := parse route in
  let force := force_of options in
  match fetch_begin st link linkParams force with
  | (st1, false) => {| outcome := Normal; final := st1; invoked := [] |}
  | (st1, true) => fetch_catch (fetch_try st1 libs link linkParams force)
                               link linkParams
  end.

(** *** [init] *)

(** Further imports of [actions.ts] that are not under src/: the URL check
    behind [new URL(api)], frontity's [error] reporter (which may throw),
    the built-in pattern tables and the four handler factories. *)
Variable valid_URL : string → bool.
Variable error : string → Completion.
Variable wpOrg wpCom : list (Pattern HandlerFunc).
Variable postTypeHandler : list string → HandlerFunc.
Variable postTypeArchiveHandler : string → string → HandlerFunc.
Variable postTypeWithQueryHandler : string → string → HandlerFunc.
Variable taxonomyHandler : Taxonomy → HandlerFunc.

(** [a || b] on optional strings. *)
Definition or_str (a b : option string) : option string :=
  if truthy_str a then a else b.

(** [`${x}`] for a captured parameter that may be [undefined]. *)
Definition param_to_string (x : option string) : string :=
  default "undefined" x.

(** Lines 157-162. *)
Definition single_entry (pt : PostType) : Pattern HandlerFunc :=
  {| name := pt_type pt;
     priority := 10;
     pattern := concatLink [Some (pt_type pt); Some "/:slug"];
     func := postTypeHandler [pt_endpoint pt] |}.

(** Lines 164-169. *)
Definition query_entry (pt : PostType) : Pattern HandlerFunc :=
  {| name := pt_type pt ++ " with query permalink";
     priority := 9;
     pattern := "RegExp:(\?|&)p=\d+&post_type=" ++ pt_type pt;
     func := postTypeWithQueryHandler (pt_type pt) (pt_endpoint pt) |}.

(** Lines 172-177. *)
Definition archive_entry (pt : PostType) : Pattern HandlerFunc :=
  {| name := pt_type pt ++ " archive";
     priority := 10;
     pattern := concatLink [pt_archive pt];
     func := postTypeArchiveHandler (pt_type pt) (pt_endpoint pt) |}.

(** Lines 155-178: the body of the [forEach] over [state.source.postTypes],
    pushing onto [handlers]. *)
Definition push_post_type (hs : list (Pattern HandlerFunc)) (pt : PostType)
  : list (Pattern HandlerFunc) :=
  let hs := push hs [single_entry pt] in
  let hs := push hs [query_entry pt] in
  if truthy_str (pt_archive pt) then push hs [archive_entry pt] else hs.

(** The entries one pass of that body appends, listed. *)
Definition entries_of (pt : PostType) : list (Pattern HandlerFunc) :=
  single_entry pt :: query_entry pt
  :: (if truthy_str (pt_archive pt) then [archive_entry pt] else []).

(** Lines 183-193. *)
Definition push_taxonomy (hs : list (Pattern HandlerFunc)) (t : Taxonomy)
  : list (Pattern HandlerFunc) :=
  push hs [{| name := tax_taxonomy t;
              priority := 10;
              pattern :=
                concatLink [Some (tax_taxonomy t); Some "/(.*)?/:slug"];
              func := taxonomyHandler t |}].

(** Lines 226-278: a base override pushes the new direction and the
    reverse one, whose function is [() => ""]. *)
Definition push_base (rs : list (Pattern RedirectionFunc))
    (subdir base : option string) (label kind : string)
  : list (Pattern RedirectionFunc) :=
  if truthy_str base then
    push rs [{| name := label ++ " base";
              priority := 10;
              pattern := concatLink [subdir; base; Some "/:subpath+"];
              func := λ params,
                "/" ++ kind ++ "/" ++ param_to_string (params !! "subpath")
                ++ "/" |};
           {| name := label ++ " base (reverse)";
              priority := 10;
              pattern := concatLink [subdir; Some ("/" ++ kind ++ "/(.*)/")];
              func := λ _, "" |}]
  else rs.

(** Lines 206-296: the redirections pushed by [init]. *)
Definition push_redirections (st : State)
    (rs : list (Pattern RedirectionFunc)) : list (Pattern RedirectionFunc) :=
  let subdir := subdirectory st in
  let rs :=
    if truthy_str (homepage st) then
      push rs [{| name := "homepage"; priority := 10;
                pattern := concatLink [subdir];
                func := λ _, concatLink [homepage st] |}]
    else rs in
  let rs :=
    if truthy_str (postsPage st) then
      push rs [{| name := "posts page"; priority := 10;
                pattern := concatLink [subdir; postsPage st];
                func := λ _, "/" |}]
    else rs in
  let rs := push_base rs subdir (categoryBase st) "category" "category" in
  let rs := push_base rs subdir (tagBase st) "tag" "tag" in
  let rs := push_base rs subdir (authorBase st) "author" "author" in
  if truthy_str subdir then
    push rs [{| name := "subdirectory"; priority := 10;
              pattern := concatLink [subdir; Some "/:subpath*"];
              func := λ params,
                let subpath := default "" (params !! "subpath") in
                "/" ++ subpath
                ++ (if bool_decide (subpath = "") then "" else "/") |};
           {| name := "subdirectory (reverse)"; priority := 10;
              pattern := "/(.*)";
              func := λ _, "" |}]
  else rs.

(** The [init] action. [authFromEnv] is
    [process.env.FRONTITY_SOURCE_AUTH]. When [error] throws, nothing has
    been written yet. [concatLink], the API client and the handler
    factories are functions that return: a call in which one of them
    throws is outside this definition, and what is proved about [init]
    speaks of the calls that return. *)
Definition init (authFromEnv : option string) (st : State)
    (libs : Libraries) : Completion * State * Libraries :=
  let checked :=
    if valid_URL (api st) then Normal
    else error "Add the URL of your WordPress REST API in state.source.api." in
  match checked with
  | Throw e => (Throw e, st, libs)
  | Normal =>
    let st :=
      if truthy_str (sourceAuth st) || truthy_str authFromEnv
      then set_auth st (or_str (sourceAuth st) authFromEnv)
      else st in
    let patterns := if isWpCom st then wpCom else wpOrg in
    let hs := push (handlers libs) patterns in
    let hs := foldl push_post_type hs (postTypes st) in
    let hs := foldl push_taxonomy hs (taxonomies st) in
    (Normal, st,
     {| handlers := hs;
        redirections := push_redirections st (redirections libs);
        api_init := Some (api st, isWpCom st) |})
  end.

(** The token in [state.source.auth] after lines 142-146: the one of the
    frontity options if there is one, else the one of the environment if
    there is one, else what was there. *)
Definition stored_auth (authFromEnv : option string) (st : State)
  : option string :=
  if truthy_str (sourceAuth st) then sourceAuth st
  else if truthy_str authFromEnv then authFromEnv
  else auth st.

End Actions.
End Source.

(** ** [@frontity/tiny-router]: the [set] action *)

Module Router.

(** The payload saved in [window.history.state]. *)
Abbreviation HistoryState := (gmap string Value).

(** [state.router] and [state.frontity.platform]. *)
Record State := mkState {
  link : string;
  state : HistoryState;
  autoFetch : bool;
  platform : string
}.

(** The second argument of [set]. An absent [method] or [state] is
    [undefined]. *)
Record Options := mkOptions {
  method : option string;
  opt_state : option HistoryState
}.

(** What [set] asks of its environment, in order: the two
    [window.history] calls and [actions.source.fetch]. *)
Inductive Effect :=
| PushState (payload : HistoryState) (url : string)
| ReplaceState (payload : HistoryState) (url : string)
| Fetch (url : string).

#[global] Instance Effect_eq_dec : EqDecision Effect.
Proof. solve_decision. Defined.

(** Lines 57 and 60: [if (state.router.autoFetch)
    actions.source?.fetch(link)]. *)
Definition trigger_fetch (st : State) (has_source_actions : bool)
    (l : string) : list Effect :=
  if autoFetch st then (if has_source_actions then [Fetch l] else []) else [].

(** The [set] action. [normalize] is [libraries.source.normalize] when a
    source package provides it; [has_source_actions] tells whether
    [actions.source] is defined. The default [{}] of [options] is
    [None]. *)
Definition set (normalize : option (string → string))
    (has_source_actions : bool) (st : State) (l : string)
    (options : option Options) : State * list Effect :=
  let l := match normalize with Some f => f l | None => l end in
  let meth := options ≫= method in
  let payload := default ∅ (options ≫= opt_state) in
  let effects :=
    if bool_decide (meth = Some "push")
       || (negb (truthy_str meth) && bool_decide (platform st = "client"))
    then PushState payload l :: trigger_fetch st has_source_actions l
    else if bool_decide (meth = Some "replace")
    then ReplaceState payload l :: trigger_fetch st has_source_actions l
    else [] in
  ({| link := l; state := payload; autoFetch := autoFetch st;
      platform := platform st |}, effects).

End Router.

(** ** [@frontity/wp-source]: the [afterSSR] action *)

(** Lines 299-303: [delete state.source.auth] and
    [delete state.frontity.options.sourceAuth]. *)
Definition afterSSR (st : State) : State :=
  {| sourceAuth := None; api := api st; isWpCom := isWpCom st;
     auth := None; subdirectory := subdirectory st;
     homepage := homepage st; postsPage := postsPage st;
     categoryBase := categoryBase st; tagBase := tagBase st;
     authorBase := authorBase st; postTypes := postTypes st;
     taxonomies := taxonomies st; data := data st |}.

(** ** [@frontity/tiny-router]: the [init] and [beforeSSR] actions *)

Module RouterLifecycle.

(** The parts of [location] that [init] reads. *)
Record Location := mkLocation {
  pathname : string;
  search : string;
  hash : string
}.

(** What [init] asks of its environment, in order: the call of
    [window.history.replaceState], the assignment
    [state.source.data[link] = state.source.get(initialLink)], which makes
    the entry of [link] the very object returned for [initialLink], and the
    registration of the [popstate] listener. *)
Inductive Effect :=
| ReplaceState (payload : Router.HistoryState) (url : string)
| AliasData (link initialLink : string)
| ListenPopstate.

#[global] Instance Effect_eq_dec : EqDecision Effect.
Proof. solve_decision. Defined.

Section Init.

(** The platform's [URLSearchParams]: how a search string is split into
    its list of parameters and how a list is written back. *)
Variable parse_query : string → list (string * string).
Variable serialize_query : list (string * string) → string.

(** [searchParams.delete(key)] removes every parameter of that name. *)
Definition delete_param (key : string) (params : list (string * string))
  : list (string * string) :=
  List.filter (λ p, negb (bool_decide (p.1 = key))) params.

(** Lines 92-94: the loop over a snapshot of the keys. *)
Definition remove_frontity_options (params : list (string * string))
  : list (string * string) :=
  foldl (λ ps key,
           if String.prefix "frontity_" key then delete_param key ps else ps)
        params (params.*1).

(** [browserURL.search] after the loop: the search string is written anew
    from the list once a parameter was deleted, and is empty when no
    parameter is left; without a deletion it is the one of the address. *)
Definition search_after (loc : Location) : string :=
  let params := parse_query (search loc) in
  if existsb (String.prefix "frontity_") (params.*1) then
    match remove_frontity_options params with
    | [] => ""
    | kept => "?" ++ serialize_query kept
    end
  else search loc.

(** Lines 91-99: the link read from the browser. *)
Definition browser_link (normalize : option (string → string))
    (loc : Location) : string :=
  let l := pathname loc ++ search_after loc ++ hash loc in
  match normalize with Some f => f l | None => l end.

(** The [init] action. [initialLink] is [state.frontity.initialLink],
    [has_source_state] tells whether [state.source] is defined, and [loc]
    is the address of the browser, read on the client only. *)
Definition init (normalize : option (string → string))
    (initialLink : string) (has_source_state : bool) (loc : Location)
    (st : Router.State) : Router.State * list Effect :=
  if bool_decide (Router.platform st = "server") then
    ({| Router.link :=
          match normalize with Some f => f initialLink | None => initialLink
          end;
        Router.state := Router.state st;
        Router.autoFetch := Router.autoFetch st;
        Router.platform := Router.platform st |}, [])
  else
    let l := browser_link normalize loc in
    let replaced := [ReplaceState (Router.state st) l] in
    if negb (bool_decide (l = initialLink)) then
      ({| Router.link := l;
          Router.state := Router.state st;
          Router.autoFetch := Router.autoFetch st;
          Router.platform := Router.platform st |},
       (replaced
        ++ (if has_source_state then [AliasData l initialLink] else [])
        ++ [ListenPopstate])%list)
    else (st, (replaced ++ [ListenPopstate])%list).

End Init.

(** Lines 116-125: the [popstate] listener. [address] is
    [location.pathname + location.search + location.hash] at the time of
    the event, and [event_state] is [event.state], [None] when it is
    [null]. *)
Definition popstate_listener (normalize : option (string → string))
    (has_source_actions : bool) (st : Router.State) (address : string)
    (event_state : option Router.HistoryState)
  : Router.State * list Router.Effect :=
  match event_state with
  | Some payload =>
    Router.set normalize has_source_actions st address
      (Some {| Router.method := Some "pop";
               Router.opt_state := Some payload |})
  | None => (st, [])
  end.

(** What one call of [beforeSSR] does: how it ends, the source state it
    leaves, the value of [ctx.status], the warnings it printed and the
    handler calls made on its behalf. *)
Record SSRResult := mkSSRResult {
  ssr_outcome : Completion;
  ssr_state : State;
  ssr_status : option Value;
  ssr_warnings : list string;
  ssr_invoked : list Invocation
}.

(** The [beforeSSR] action. [get] is [state.source.get], which is not
    under src/; [fetch_action] is [actions.source.fetch] when a source
    package is installed; [status] is [ctx.status] before the call. *)
Definition beforeSSR (get : State → string → Obj)
    (fetch_action : option (State → string → FetchResult))
    (router : Router.State) (st : State) (status : option Value)
  : SSRResult :=
  if Router.autoFetch router then
    match fetch_action with
    | Some fetch =>
      let r := fetch st (Router.link router) in
      match outcome r with
      | Throw e =>
        {| ssr_outcome := Throw e; ssr_state := final r;
           ssr_status := status; ssr_warnings := [];
           ssr_invoked := invoked r |}
      | Normal =>
        let d := get (final r) (Router.link router) in
        {| ssr_outcome := Normal; ssr_state := final r;
           ssr_status := if isError d then d !! "errorStatus" else status;
           ssr_warnings := []; ssr_invoked := invoked r |}
      end
    | None =>
      {| ssr_outcome := Normal; ssr_state := st; ssr_status := status;
         ssr_warnings :=
           ["You are trying to use autoFetch but no source package is installed."];
         ssr_invoked := [] |}
    end
  else
    {| ssr_outcome := Normal; ssr_state := st; ssr_status := status;
       ssr_warnings := []; ssr_invoked := [] |}.

End RouterLifecycle.

(** ** Concrete collaborators used to run the actions on examples

    Stand-ins for the route utilities and the matcher on links that are
    already normalized and carry neither query nor page: there [normalize]
    returns the link, [parse] returns it as the route with an empty query
    on page 1, and a pattern without parameters matches the path equal to
    it, while the catch-all pattern of the reverse subdirectory rule matches
    every path starting with a slash. *)

Module Example.

Definition normalize (route : string) : string := route.

Definition parse (route : string) : RouteParams :=
  {| rp_route := route; rp_query := []; rp_page := 1; rp_queryString := "" |}.

Definition matches (pat path : string) : bool :=
  if bool_decide (pat = "/(.*)") then String.prefix "/" path
  else bool_decide (pat = path).

Definition getMatch (F : Type) (path : string) (entries : list (Pattern F))
  : option (Match F) :=
  match List.find (λ e, matches (pattern e) path) entries with
  | Some e => Some {| match_func := func e; match_params := ∅;
                      match_pattern := pattern e |}
  | None => None
  end.

Definition statusText_default (message : string) : string := message.

Definition concatLink (paths : list (option string)) : string :=
  String.concat "" (omap id paths).

Definition fetch := Source.fetch normalize parse getMatch statusText_default.

(** Collaborators of [init]: every [api] is taken for a valid URL, [error]
    throws, there are no built-in patterns, and the factories return a
    handler that resolves without writing. *)
Definition valid_URL (api : string) : bool := true.

Definition error (message : string) : Completion :=
  Throw (OtherError message).

Definition idle_handler : HandlerFunc := λ ctx st, (Normal, st).

Definition init :=
  Source.init concatLink valid_URL error [] []
    (λ _, idle_handler) (λ _ _, idle_handler) (λ _ _, idle_handler)
    (λ _, idle_handler).

(** A site with no entries in the cache. *)
Definition empty_state : State :=
  {| sourceAuth := None; api := "https://example.org/wp-json";
     isWpCom := false; auth := None; subdirectory := None; homepage := None;
     postsPage := None; categoryBase := None; tagBase := None;
     authorBase := None; postTypes := []; taxonomies := []; data := ∅ |}.

Definition with_handlers (hs : list (Pattern HandlerFunc)) : Libraries :=
  {| handlers := hs; redirections := []; api_init := None |}.

(** A custom handler that replaces the entry of its link by a new object
    without [route], [link], [query] and [page]. *)
Definition replacing_handler : HandlerFunc :=
  λ ctx st,
    (Normal, set_data st (ctx_link ctx)
               (literal [("isPostType", VBool true); ("id", VNum 7)])).

(** A handler that rejects with an error that is not a [ServerError]. *)
Definition failing_handler : HandlerFunc :=
  λ ctx st, (Throw (OtherError "network down"), st).

(** A handler that rejects with a [ServerError] of status 500. *)
Definition server_error_handler : HandlerFunc :=
  λ ctx st,
    (Throw (ServerError {| se_message := "boom"; se_status := 500;
                           se_statusText := "Internal Server Error" |}), st).

(** A handler that merges its result into the entry and flags it as the
    home page itself. *)
Definition landing_handler : HandlerFunc :=
  λ ctx st,
    (Normal,
     match data st !! ctx_link ctx with
     | Some d => set_data st (ctx_link ctx)
                   (assign d [("isPostType", VBool true);
                              ("isHome", VBool true)])
     | None => st
     end).

Definition about_entry (f : HandlerFunc) : Pattern HandlerFunc :=
  {| name := "about"; priority := 10; pattern := "/about/"; func := f |}.

Definition about_libs (f : HandlerFunc) : Libraries :=
  with_handlers [about_entry f].

(** What [getMatch] returns for ["/about/"] against [about_libs f]. *)
Definition about_match (f : HandlerFunc) : Match HandlerFunc :=
  {| match_func := f; match_params := ∅; match_pattern := "/about/" |}.

Definition forced : option FetchOptions :=
  Some {| opt_force := Some true |}.

(** The state after one successful fetch of ["/about/"] with the replacing
    handler, and the entry it leaves. *)
Definition fetched_once : FetchResult :=
  fetch empty_state (about_libs replacing_handler) "/about/" None.

Definition entry_once : Obj :=
  literal [("isPostType", VBool true); ("id", VNum 7);
           ("isFetching", VBool false); ("isReady", VBool true)].


Definition error_500 : ServerErrorData :=
  {| se_message := "boom"; se_status := 500;
     se_statusText := "Internal Server Error" |}.

(** The state in which a handler is called on the first fetch of
    ["/about/"]. *)
Definition about_begun : State :=
  set_data empty_state "/about/" (Source.init_data "/about/" (parse "/about/")).

(** The reverse rule that [init] registers for a subdirectory, and a site
    that has it together with a handler for ["/about/"]. *)
Definition reverse_rule : Pattern RedirectionFunc :=
  {| name := "subdirectory (reverse)"; priority := 10; pattern := "/(.*)";
     func := λ _, "" |}.

Definition reverse_match : Match RedirectionFunc :=
  {| match_func := λ _, ""; match_params := ∅; match_pattern := "/(.*)" |}.

Definition blog_libs : Libraries :=
  {| handlers := [about_entry idle_handler];
     redirections := [reverse_rule]; api_init := None |}.

(** The configuration [{postTypes: [{type: "movie", endpoint: "movies"}]}]. *)
Definition movie_state : State :=
  {| sourceAuth := None; api := "https://example.org/wp-json";
     isWpCom := false; auth := None; subdirectory := None; homepage := None;
     postsPage := None; categoryBase := None; tagBase := None;
     authorBase := None;
     postTypes := [{| pt_type := "movie"; pt_endpoint := "movies";
                      pt_archive := None |}];
     taxonomies := []; data := ∅ |}.

(** A router on the client with [autoFetch] on, and the options of the
    [popstate] listener. *)
Definition client_router : Router.State :=
  {| Router.link := "/"; Router.state := ∅; Router.autoFetch := true;
     Router.platform := "client" |}.

Definition pop_options : Router.Options :=
  {| Router.method := Some "pop"; Router.opt_state := Some ∅ |}.

(** A handler that replaces the entry of its link by an empty object
    and then rejects with an error that is not a [ServerError]. *)
Definition clearing_failing_handler : HandlerFunc :=
  λ ctx st,
    (Throw (OtherError "network down"), set_data st (ctx_link ctx) ∅).

(** A handler that resolves after it has removed the entry of its
    link. *)
Definition removing_handler : HandlerFunc :=
  λ ctx st,
    (Normal,
     {| sourceAuth := sourceAuth st; api := api st; isWpCom := isWpCom st;
        auth := auth st; subdirectory := subdirectory st;
        homepage := homepage st; postsPage := postsPage st;
        categoryBase := categoryBase st; tagBase := tagBase st;
        authorBase := authorBase st; postTypes := postTypes st;
        taxonomies := taxonomies st;
        data := delete (ctx_link ctx) (data st) |}).

(** A site in the subdirectory ["/blog"], with a category base, one
    taxonomy and a token in the frontity options. *)
Definition blog_state : State :=
  {| sourceAuth := Some "token"; api := "https://example.org/wp-json";
     isWpCom := false; auth := None; subdirectory := Some "/blog";
     homepage := None; postsPage := None; categoryBase := Some "topics";
     tagBase := None; authorBase := None;
     postTypes := [{| pt_type := "movie"; pt_endpoint := "movies";
                      pt_archive := Some "/movies" |}];
     taxonomies := [{| tax_taxonomy := "genre"; tax_endpoint := "genres";
                       tax_postTypeEndpoint := None; tax_params := None |}];
     data := ∅ |}.

(** [state.source.get]: the stored entry, or an empty object. *)
Definition get (st : State) (l : string) : Obj :=
  default ∅ (data st !! normalize l).

(** A router on the server whose link is ["/about/"]. *)
Definition about_router : Router.State :=
  {| Router.link := "/about/"; Router.state := ∅; Router.autoFetch := true;
     Router.platform := "server" |}.

(** An address with a frontity option and one more parameter, and the
    reading and writing of its search string. *)
Definition address : RouterLifecycle.Location :=
  {| RouterLifecycle.pathname := "/about/";
     RouterLifecycle.search := "?frontity_name=mars&page=2";
     RouterLifecycle.hash := "" |}.

Definition parse_query (search : string) : list (string * string) :=
  if bool_decide (search = "?frontity_name=mars&page=2")
  then [("frontity_name", "mars"); ("page", "2")]
  else [].

Definition serialize_query (params : list (string * string)) : string :=
  String.concat "&" ((λ p, p.1 ++ "=" ++ p.2) <$> params).

Definition router_init :=
  RouterLifecycle.init parse_query serialize_query.

End Example.


(** ** Statements in the wording of the specification

    Sentences of the specification about [fetch], [init] and the router's
    [set], written down as they stand, to be compared with the code in the
    second half of the file. *)

Module Stated.
Section Fetch.

Variable normalize : string → string.
Variable parse : string → RouteParams.
Variable getMatch : ∀ F : Type, string → list (Pattern F) → option (Match F).
Variable statusText_default : string → string.

Local Abbreviation fetch :=
  (Source.fetch normalize parse getMatch statusText_default).
Local Abbreviation handler_path := (Source.handler_path getMatch).

(** A second unforced call, on an entry that is fetching or ready and not
    an error, invokes no handler and does not mutate the entry. *)
Definition repeated_fetch_is_noop (st : State) (libs : Libraries)
    (route : string) : Prop :=
  ∀ d, data st !! normalize route = Some d →
    truthy (d !! "isFetching") = true
    ∨ (truthy (d !! "isReady") = true ∧ isError d = false) →
    let r := fetch st libs route None in
    outcome r = Normal ∧ invoked r = []
    ∧ data (final r) !! normalize route = Some d.

(** A redirection that returns the empty string leaves the route to match
    as it was. *)
Definition empty_redirection_keeps_route (libs : Libraries)
    (route : string) : Prop :=
  ∀ r, getMatch RedirectionFunc (rp_route (parse route)) (redirections libs)
       = Some r →
    match_func r (match_params r) = "" →
    handler_path (parse route) (redirections libs)
    = rp_route (parse route) ++ rp_queryString (parse route).

(** After a successful fetch the entry has [isHome = true] exactly when
    its route is the normalized root, the matched pattern is no
    ["RegExp:"] pattern, and the entry is no search. *)
Definition isHome_iff_root (st : State) (libs : Libraries) (route : string)
    (options : option FetchOptions) : Prop :=
  let link := normalize route in
  let force := force_of options in
  ∀ st1 h st2 d',
    Source.fetch_begin st link (parse route) force = (st1, true) →
    getMatch HandlerFunc (handler_path (parse route) (redirections libs))
             (handlers libs) = Some h →
    match_func h (Source.handler_ctx link h force) st1 = (Normal, st2) →
    data (final (fetch st libs route options)) !! link = Some d' →
    (d' !! "isHome" = Some (VBool true) ↔
     d' !! "route"
       = Some (VStr (normalize (Source.subdirectory_or_root st2)))
     ∧ String.prefix "RegExp:" (match_pattern h) = false
     ∧ isSearch d' = false).

(** A handler that throws something else than a [ServerError] leaves the
    entry with [isFetching = true] and [isReady = false], and every later
    unforced fetch of the link then invokes no handler. *)
Definition throw_leaves_entry_unsettled (st : State) (libs : Libraries)
    (route : string) (options : option FetchOptions) : Prop :=
  let link := normalize route in
  let force := force_of options in
  ∀ st1 h e st2,
    Source.fetch_begin st link (parse route) force = (st1, true) →
    getMatch HandlerFunc (handler_path (parse route) (redirections libs))
             (handlers libs) = Some h →
    match_func h (Source.handler_ctx link h force) st1 = (Throw e, st2) →
    (∀ se, e ≠ ServerError se) →
    let r := fetch st libs route options in
    (∃ d, data (final r) !! link = Some d
          ∧ d !! "isFetching" = Some (VBool true)
          ∧ d !! "isReady" = Some (VBool false))
    ∧ ∀ libs' options',
        truthy_bool (force_of options') = false →
        invoked (fetch (final r) libs' route options') = [].

End Fetch.

Section Init.

Variable concatLink : list (option string) → string.

(** What the specification asks of the entries registered for one custom
    post type: a single-item entry of priority 10 on a [:slug] pattern, a
    query-permalink entry of priority 9 on a ["RegExp:"] pattern, and after
    them an archive entry of priority 10 exactly when an archive is
    declared, that is, when [archive] is a string that is not empty:
    without one the two entries are all there is, and with one the archive
    entry is there. *)
Definition registered_for (pt : PostType)
    (entries : list (Pattern HandlerFunc)) : Prop :=
  ∃ single query,
    name single = pt_type pt
    ∧ priority single = 10%Z
    ∧ pattern single = concatLink [Some (pt_type pt); Some "/:slug"]
    ∧ name query = pt_type pt ++ " with query permalink"
    ∧ priority query = 9%Z
    ∧ String.prefix "RegExp:" (pattern query) = true
    ∧ ((truthy_str (pt_archive pt) = false ∧ entries = [single; query])
       ∨ ∃ a archive,
           pt_archive pt = Some a
           ∧ a ≠ ""
           ∧ name archive = pt_type pt ++ " archive"
           ∧ priority archive = 10%Z
           ∧ pattern archive = concatLink [Some a]
           ∧ entries = [single; query; archive]).

End Init.

Section Router.

(** The [set] operation as the specification words it: the history entry
    is pushed or replaced unless the method is ["pop"], a fetch of the
    link is triggered whenever [autoFetch] is on, and the link and the
    payload are stored. *)
Definition set_as_specified (normalize : option (string → string))
    (has_source_actions : bool) (st : Router.State) (l : string)
    (options : option Router.Options) : Prop :=
  let res := Router.set normalize has_source_actions st l options in
  let l' := match normalize with Some f => f l | None => l end in
  let payload := default ∅ (options ≫= Router.opt_state) in
  ((options ≫= Router.method) ≠ Some "pop" →
   Router.PushState payload l' ∈ snd res
   ∨ Router.ReplaceState payload l' ∈ snd res)
  ∧ ((options ≫= Router.method) = Some "pop" →
     ∀ p u, (Router.PushState p u ∉ snd res)
            ∧ (Router.ReplaceState p u ∉ snd res))
  ∧ (Router.autoFetch st = true → Router.Fetch l' ∈ snd res)
  ∧ Router.link (fst res) = l'
  ∧ Router.state (fst res) = payload.

End Router.
End Stated.

(** * Properties *)

(** ** Objects *)

Arguments assign : simpl never.
Arguments set_data : simpl never.

Lemma assign_cons (d : Obj) k v props :
  assign d ((k, v) :: props) = assign (<[k := v]> d) props.
Proof. reflexivity. Qed.

Lemma assign_nil (d : Obj) : assign d [] = d.
Proof. reflexivity. Qed.

(** A property that [Object.assign] does not list keeps its value. *)
Lemma lookup_assign_other (props : list (string * Value)) (d : Obj) k :
  k ∉ props.*1 → assign d props !! k = d !! k.
Proof.
  revert d. induction props as [|[k' v] props IH]; intros d Hk; [done|].
  rewrite fmap_cons, not_elem_of_cons in Hk. destruct Hk as [Hne Hk].
  rewrite assign_cons, IH by done. by apply lookup_insert_ne.
Qed.

(** Assigning values the object already holds changes nothing. *)
Lemma assign_id (props : list (string * Value)) (d : Obj) :
  Forall (λ kv, d !! kv.1 = Some kv.2) props → assign d props = d.
Proof.
  induction 1 as [|[k v] props Hkv _ IH]; [done|].
  rewrite assign_cons, insert_id; done.
Qed.

Lemma string_append_assoc (s1 s2 s3 : string) :
  s1 ++ s2 ++ s3 = (s1 ++ s2) ++ s3.
Proof.
  induction s1 as [|c s1 IH]; [done|].
  cbv [String.append]. fold String.append. by rewrite IH.
Qed.

Lemma set_data_id st link d : data st !! link = Some d → set_data st link d = st.
Proof.
  intros H. destruct st; unfold set_data; simpl in *. by rewrite insert_id.
Qed.

Lemma data_set_data st link d : data (set_data st link d) !! link = Some d.
Proof. apply lookup_insert_eq. Qed.

Lemma data_set_data_ne st link link' d :
  link ≠ link' → data (set_data st link d) !! link' = data st !! link'.
Proof. apply lookup_insert_ne. Qed.

Lemma set_data_twice st link d d' :
  set_data (set_data st link d) link d' = set_data st link d'.
Proof. unfold set_data; simpl. by rewrite insert_insert_eq. Qed.

(** *** The status flag [is${status}] *)

(** The decimal digits never produce a character outside ["0".."9"]. *)
Lemma pretty_N_go_head (c : ascii) x s :
  (∀ n, pretty_N_char n ≠ c) →
  (∀ t, s ≠ String c t) →
  ∀ t, pretty_N_go x s ≠ String c t.
Proof.
  intros Hdigit. revert s.
  induction (N.lt_wf_0 x) as [x _ IH]; intros s Hs t.
  assert (x = 0 ∨ 0 < x)%N as [->|Hpos] by lia.
  - rewrite pretty_N_go_0. apply Hs.
  - rewrite pretty_N_go_step by done. apply IH.
    + by apply N.div_lt.
    + intros t' [= Hc _]. by apply (Hdigit (x `mod` 10)%N).
Qed.

(** The text of a number starts with a digit or a minus sign. *)
Lemma number_to_string_head (c : ascii) z t :
  (∀ n, pretty_N_char n ≠ c) → c ≠ "-"%char →
  number_to_string z ≠ String c t.
Proof.
  intros Hdigit Hdash. unfold number_to_string, pretty, pretty_Z.
  destruct z as [|p|p].
  - intros [= Hc _]. by apply (Hdigit 0%N).
  - unfold pretty, pretty_positive, pretty, pretty_N. simpl.
    by apply pretty_N_go_head.
  - simpl. intros [= Hc _]. by apply Hdash.
Qed.

(** The computed key [is${status}] is none of the three flags written
    before it in the error record. *)
Lemma status_flag_fresh z :
  "is" ++ number_to_string z ∉ ["isError"; "isReady"; "isFetching"].
Proof.
  rewrite !not_elem_of_cons. repeat split; try apply not_elem_of_nil;
    simpl; intros [= H]; revert H; apply number_to_string_head;
    try done; intros n; unfold pretty_N_char; by repeat case_match.
Qed.

(** Nor is it one of the properties written after it. *)
Lemma status_flag_not_later z :
  "is" ++ number_to_string z
  ∉ ["errorStatus"; "errorStatusText"; "route"; "link"; "query"; "page"].
Proof.
  rewrite !not_elem_of_cons. repeat split; try apply not_elem_of_nil;
    simpl; discriminate.
Qed.

Section FetchProperties.

Variable normalize : string → string.
Variable parse : string → RouteParams.
Variable getMatch : ∀ F : Type, string → list (Pattern F) → option (Match F).
Variable statusText_default : string → string.

Import Source.

Local Abbreviation fetch :=
  (Source.fetch normalize parse getMatch statusText_default).
Local Abbreviation handler_path := (Source.handler_path getMatch).
Local Abbreviation is_home := (Source.is_home normalize).
Local Abbreviation no_handler_error :=
  (Source.no_handler_error statusText_default).

(** The four properties reassigned on every call do not include the
    lifecycle flags. *)
Lemma route_props_flags link lp (d : Obj) k :
  k ∉ ["route"; "link"; "query"; "page"] →
  assign d (route_props link lp) !! k = d !! k.
Proof. intros Hk. by apply lookup_assign_other. Qed.

Lemma init_data_isFetching link lp :
  init_data link lp !! "isFetching" = Some (VBool true).
Proof. unfold init_data, literal, route_props, assign. by simplify_map_eq. Qed.

Lemma init_data_isReady link lp :
  init_data link lp !! "isReady" = Some (VBool false).
Proof. unfold init_data, literal, route_props, assign. by simplify_map_eq. Qed.


(** [fetch] goes on to the handler exactly when the entry is absent, or
    the call is forced, or neither lifecycle flag of the entry is truthy. *)
Lemma fetch_begin_proceeds st link lp force :
  (fetch_begin st link lp force).2 = true ↔
  data st !! link = None ∨ truthy_bool force = true ∨
  ∃ d, data st !! link = Some d ∧
       truthy (d !! "isReady") = false ∧ truthy (d !! "isFetching") = false.
Proof.
  unfold fetch_begin.
  destruct (data st !! link) as [d|] eqn:Hd; simpl; [|naive_solver].
  rewrite !route_props_flags by compute_done.
  destruct (truthy_bool force); simpl.
  - destruct (isError d); naive_solver.
  - destruct (truthy (d !! "isReady")) eqn:Hr,
      (truthy (d !! "isFetching")) eqn:Hf; simpl;
      (split; [intros; try done; right; right; by exists d
              |intros [?|[?|(d0 & ? & ? & ?)]]; simplify_eq; congruence]).
Qed.

(** The early return of [fetch]: what it leaves behind. *)
Lemma fetch_begin_skips st link lp force d :
  truthy_bool force = false →
  data st !! link = Some d →
  truthy (d !! "isReady") || truthy (d !! "isFetching") = true →
  fetch_begin st link lp force
  = (set_data st link (assign d (route_props link lp)), false).
Proof.
  intros Hf Hd Hflags. unfold fetch_begin. rewrite Hd, Hf. simpl.
  rewrite !route_props_flags by compute_done. by rewrite Hflags.
Qed.

(** What [fetch] returns once it has reached a handler, by the way the
    handler completes. *)
Lemma fetch_handler_throws st libs route options st1 h e st2 :
  fetch_begin st (normalize route) (parse route) (force_of options)
  = (st1, true) →
  getMatch HandlerFunc (handler_path (parse route) (redirections libs))
           (handlers libs) = Some h →
  match_func h (handler_ctx (normalize route) h (force_of options)) st1
  = (Throw e, st2) →
  fetch st libs route options
  = fetch_catch
      {| outcome := Throw e; final := st2;
         invoked := [{| inv_pattern := match_pattern h;
                        inv_ctx := handler_ctx (normalize route) h
                                     (force_of options);
                        inv_state := st1 |}] |}
      (normalize route) (parse route).
Proof.
  intros Hb Hm Hc. unfold Source.fetch, Source.fetch_try.
  by rewrite Hb, Hm, Hc.
Qed.

Lemma fetch_handler_resolves st libs route options st1 h st2 d :
  fetch_begin st (normalize route) (parse route) (force_of options)
  = (st1, true) →
  getMatch HandlerFunc (handler_path (parse route) (redirections libs))
           (handlers libs) = Some h →
  match_func h (handler_ctx (normalize route) h (force_of options)) st1
  = (Normal, st2) →
  data st2 !! normalize route = Some d →
  fetch st libs route options
  = {| outcome := Normal;
       final := set_data st2 (normalize route)
                  (assign d (ready_props (is_home (match_pattern h) d st2)));
       invoked := [{| inv_pattern := match_pattern h;
                      inv_ctx := handler_ctx (normalize route) h
                                   (force_of options);
                      inv_state := st1 |}] |}.
Proof.
  intros Hb Hm Hc Hd. unfold Source.fetch, Source.fetch_try.
  by rewrite Hb, Hm, Hc, Hd.
Qed.

Lemma fetch_no_handler st libs route options st1 :
  fetch_begin st (normalize route) (parse route) (force_of options)
  = (st1, true) →
  getMatch HandlerFunc (handler_path (parse route) (redirections libs))
           (handlers libs) = None →
  fetch st libs route options
  = {| outcome := Normal;
       final := set_data st1 (normalize route)
                  (error_data (no_handler_error (normalize route))
                     (normalize route) (parse route));
       invoked := [] |}.
Proof.
  intros Hb Hm. unfold Source.fetch, Source.fetch_try.
  by rewrite Hb, Hm.
Qed.

(** The properties merged in on success. *)
Lemma ready_props_flags (d : Obj) b :
  assign d (ready_props b) !! "isFetching" = Some (VBool false)
  ∧ assign d (ready_props b) !! "isReady" = Some (VBool true).
Proof. destruct b; unfold ready_props, assign; simpl; by simplify_map_eq. Qed.

Lemma ready_props_isHome (d : Obj) b :
  assign d (ready_props b) !! "isHome"
  = if b then Some (VBool true) else d !! "isHome".
Proof. destruct b; unfold ready_props, assign; simpl; by simplify_map_eq. Qed.

Lemma ready_props_other (d : Obj) b k :
  k ∉ ["isHome"; "isFetching"; "isReady"] →
  assign d (ready_props b) !! k = d !! k.
Proof.
  intros Hk. apply lookup_assign_other.
  destruct b; simpl; set_solver.
Qed.

(** The early return, seen from [fetch]. *)
Lemma fetch_skips st libs route options d :
  truthy_bool (force_of options) = false →
  data st !! normalize route = Some d →
  truthy (d !! "isReady") || truthy (d !! "isFetching") = true →
  fetch st libs route options
  = {| outcome := Normal;
       final := set_data st (normalize route)
                  (assign d (route_props (normalize route) (parse route)));
       invoked := [] |}.
Proof.
  intros Hf Hd Hflags. unfold Source.fetch.
  by rewrite (fetch_begin_skips _ _ _ _ d).
Qed.

(** The [catch] clause lets everything but a [ServerError] through. *)
Lemma fetch_catch_rethrows e st2 calls link lp :
  (∀ se, e ≠ ServerError se) →
  fetch_catch {| outcome := Throw e; final := st2; invoked := calls |} link lp
  = {| outcome := Throw e; final := st2; invoked := calls |}.
Proof.
  intros Hne. unfold fetch_catch; simpl.
  destruct e as [se| |]; [by destruct (Hne se)|done..].
Qed.

(** C1 (as amended). A call of [fetch] without [force] on an entry whose
    [isReady] or [isFetching] flag is set returns at once and invokes no
    handler. The entry of the link is afterwards the same entry with
    [route], [link], [query] and [page] reassigned to the values parsed
    from the link: every other property of the entry keeps its value, and
    when the entry already holds the four parsed values nothing changes at
    all. *)
Theorem fetch_deduplicates st libs route options d :
  truthy_bool (force_of options) = false →
  data st !! normalize route = Some d →
  truthy (d !! "isReady") || truthy (d !! "isFetching") = true →
  let r := fetch st libs route options in
  let link := normalize route in
  outcome r = Normal ∧ invoked r = []
  ∧ data (final r) !! link
    = Some (assign d (route_props link (parse route)))
  ∧ (∀ k, k ∉ ["route"; "link"; "query"; "page"] →
          data (final r) !! link ≫= (.!! k) = d !! k)
  ∧ (Forall (λ kv, d !! kv.1 = Some kv.2) (route_props link (parse route)) →
     final r = st).
Proof.
  intros Hf Hd Hflags r link. subst r link.
  rewrite (fetch_skips _ _ _ _ d) by done. cbn [outcome final invoked].
  repeat split.
  - apply data_set_data.
  - intros k Hk. rewrite data_set_data. simpl. by apply route_props_flags.
  - intros Hsame. rewrite assign_id by done. by apply set_data_id.
Qed.


(** C5. When the handler throws something that is not a [ServerError],
    [fetch] throws the same exception and writes nothing after the
    handler: the state is the one the handler left, so no error record is
    stored. *)
Theorem fetch_rethrows_unclassified st libs route options st1 h e st2 :
  fetch_begin st (normalize route) (parse route) (force_of options)
  = (st1, true) →
  getMatch HandlerFunc (handler_path (parse route) (redirections libs))
           (handlers libs) = Some h →
  match_func h (handler_ctx (normalize route) h (force_of options)) st1
  = (Throw e, st2) →
  (∀ se, e ≠ ServerError se) →
  let r := fetch st libs route options in
  outcome r = Throw e ∧ final r = st2
  ∧ data (final r) !! normalize route = data st2 !! normalize route.
Proof.
  intros Hb Hm Hc Hne r. subst r.
  rewrite (fetch_handler_throws _ _ _ _ st1 h e st2) by done.
  by rewrite fetch_catch_rethrows.
Qed.

(** C10. On success the flags are merged into the entry the handler left:
    [isFetching] becomes [false], [isReady] becomes [true], [isHome]
    becomes [true] or keeps its value, and every other property of the
    entry is the one the handler left. *)
Theorem fetch_success_merges st libs route options st1 h st2 d :
  fetch_begin st (normalize route) (parse route) (force_of options)
  = (st1, true) →
  getMatch HandlerFunc (handler_path (parse route) (redirections libs))
           (handlers libs) = Some h →
  match_func h (handler_ctx (normalize route) h (force_of options)) st1
  = (Normal, st2) →
  data st2 !! normalize route = Some d →
  let r := fetch st libs route options in
  outcome r = Normal
  ∧ ∃ d', data (final r) !! normalize route = Some d'
      ∧ d' !! "isFetching" = Some (VBool false)
      ∧ d' !! "isReady" = Some (VBool true)
      ∧ (d' !! "isHome" = Some (VBool true) ∨ d' !! "isHome" = d !! "isHome")
      ∧ (∀ k, k ∉ ["isHome"; "isFetching"; "isReady"] → d' !! k = d !! k).
Proof.
  intros Hb Hm Hc Hd r. subst r.
  rewrite (fetch_handler_resolves _ _ _ _ st1 h st2 d) by done. simpl.
  split; [done|]. eexists. split; [apply lookup_insert_eq|].
  destruct (ready_props_flags d (is_home (match_pattern h) d st2)) as [? ?].
  repeat split; try done.
  - rewrite ready_props_isHome. destruct (is_home _ _ _); auto.
  - intros k Hk. by apply ready_props_other.
Qed.

(** *** The error record *)

(** The error record holds exactly the ten properties of lines 110-121. *)
Lemma error_data_fields e link lp :
  let ed := error_data e link lp in
  ed !! "isError" = Some (VBool true)
  ∧ ed !! "isReady" = Some (VBool true)
  ∧ ed !! "isFetching" = Some (VBool false)
  ∧ ed !! ("is" ++ number_to_string (se_status e)) = Some (VBool true)
  ∧ ed !! "errorStatus" = Some (VNum (se_status e))
  ∧ ed !! "errorStatusText" = Some (VStr (se_statusText e))
  ∧ ed !! "route" = Some (VStr (rp_route lp))
  ∧ ed !! "link" = Some (VStr link)
  ∧ ed !! "query" = Some (VQuery (rp_query lp))
  ∧ ed !! "page" = Some (VNum (rp_page lp))
  ∧ ∀ k, k ∉ error_keys e → ed !! k = None.
Proof.
  intros ed. subst ed.
  pose proof (status_flag_fresh (se_status e)) as Hfresh.
  pose proof (status_flag_not_later (se_status e)) as Hlater.
  unfold error_keys, error_data, literal, route_props, assign.
  remember ("is" ++ number_to_string (se_status e)) as flag eqn:Hflag.
  clear Hflag. rewrite !not_elem_of_cons in Hfresh.
  rewrite !not_elem_of_cons in Hlater.
  destruct Hfresh as (? & ? & ? & _).
  destruct Hlater as (? & ? & ? & ? & ? & ? & _).
  simpl. repeat split; try by simplify_map_eq.
  intros k Hk. rewrite !not_elem_of_cons in Hk.
  destruct Hk as (? & ? & ? & ? & ? & ? & ? & ? & ? & ? & _).
  by simplify_map_eq.
Qed.

(** The entry [fetch] hands to the handler: its [isFetching] flag is set,
    and it is the freshly initialized record when the link was absent or
    an error entry is fetched again with [force]. *)
Lemma fetch_begin_entry st link lp force st1 :
  fetch_begin st link lp force = (st1, true) →
  ∃ d1, data st1 !! link = Some d1
    ∧ d1 !! "isFetching" = Some (VBool true)
    ∧ (data st !! link = None
       ∨ (truthy_bool force = true
          ∧ ∃ d0, data st !! link = Some d0 ∧ isError d0 = true) →
       d1 = init_data link lp).
Proof.
  unfold fetch_begin. destruct (data st !! link) as [d0|] eqn:Hd.
  - destruct (truthy_bool force && isError d0) eqn:Hfe.
    + intros [= <-]. exists (init_data link lp).
      split; [apply data_set_data|]. split; [apply init_data_isFetching|done].
    + destruct (negb (truthy_bool force) && _); [done|]. intros [= <-].
      eexists. split; [apply data_set_data|].
      split; [apply lookup_insert_eq|].
      intros [?|(Hf & d0' & ? & He)]; simplify_eq.
      by rewrite Hf, He in Hfe.
  - intros [= <-]. exists (init_data link lp).
    split; [apply data_set_data|]. split; [apply init_data_isFetching|done].
Qed.

(** C3 (as amended). When the matching redirection returns the empty
    string, that empty string is the route: the handlers are matched
    against the query string alone, not against the original route. If no
    handler matches it, the fetch ends in the 404 error entry without
    invoking a handler. *)
Theorem empty_redirection_is_the_route st libs route options r :
  getMatch RedirectionFunc (rp_route (parse route)) (redirections libs)
  = Some r →
  match_func r (match_params r) = "" →
  handler_path (parse route) (redirections libs)
  = rp_queryString (parse route)
  ∧ ∀ st1,
      fetch_begin st (normalize route) (parse route) (force_of options)
      = (st1, true) →
      getMatch HandlerFunc (rp_queryString (parse route)) (handlers libs)
      = None →
      let res := fetch st libs route options in
      outcome res = Normal ∧ invoked res = []
      ∧ data (final res) !! normalize route
        = Some (error_data (no_handler_error (normalize route))
                  (normalize route) (parse route))
      ∧ se_status (no_handler_error (normalize route)) = 404%Z.
Proof.
  intros Hr Hempty.
  assert (handler_path (parse route) (redirections libs)
          = rp_queryString (parse route)) as Hpath.
  { unfold Source.handler_path, redirect. by rewrite Hr, Hempty. }
  split; [done|]. intros st1 Hb Hm res. subst res.
  rewrite (fetch_no_handler _ _ _ _ st1) by (by rewrite ?Hpath).
  cbn [outcome final invoked]. by rewrite data_set_data.
Qed.

(** C4. When no handler matches the redirected route, or the handler
    throws a [ServerError], [fetch] returns normally and the entry of the
    link is the error record built from the error and the parsed link
    alone: it replaces whatever the entry held. The record has
    [isError = true], [isReady = true], [isFetching = false], the status
    in [errorStatus], the flag [is<status> = true], the parsed [route],
    [link], [query] and [page], and nothing besides these and
    [errorStatusText]. Without a matching handler the status is 404. *)
Theorem fetch_error_replaces_entry st libs route options st1 e :
  fetch_begin st (normalize route) (parse route) (force_of options)
  = (st1, true) →
  (getMatch HandlerFunc (handler_path (parse route) (redirections libs))
            (handlers libs) = None
   ∧ e = no_handler_error (normalize route))
  ∨ (∃ h st2,
       getMatch HandlerFunc (handler_path (parse route) (redirections libs))
                (handlers libs) = Some h
       ∧ match_func h (handler_ctx (normalize route) h (force_of options)) st1
         = (Throw (ServerError e), st2)) →
  let res := fetch st libs route options in
  let ed := error_data e (normalize route) (parse route) in
  outcome res = Normal
  ∧ data (final res) !! normalize route = Some ed
  ∧ ed !! "isError" = Some (VBool true)
  ∧ ed !! "isReady" = Some (VBool true)
  ∧ ed !! "isFetching" = Some (VBool false)
  ∧ ed !! "errorStatus" = Some (VNum (se_status e))
  ∧ ed !! ("is" ++ number_to_string (se_status e)) = Some (VBool true)
  ∧ ed !! "route" = Some (VStr (rp_route (parse route)))
  ∧ ed !! "link" = Some (VStr (normalize route))
  ∧ ed !! "query" = Some (VQuery (rp_query (parse route)))
  ∧ ed !! "page" = Some (VNum (rp_page (parse route)))
  ∧ (∀ k, k ∉ error_keys e → ed !! k = None)
  ∧ (getMatch HandlerFunc (handler_path (parse route) (redirections libs))
              (handlers libs) = None → se_status e = 404%Z).
Proof.
  intros Hb Hcase res ed.
  destruct (error_data_fields e (normalize route) (parse route))
    as (? & ? & ? & ? & ? & ? & ? & ? & ? & ? & ?).
  assert (outcome res = Normal ∧ data (final res) !! normalize route = Some ed)
    as [? ?].
  { subst res ed. destruct Hcase as [[Hm ->]|(h & st2 & Hm & Hc)].
    - rewrite (fetch_no_handler _ _ _ _ st1) by done.
      cbn [outcome final]. by rewrite data_set_data.
    - rewrite (fetch_handler_throws _ _ _ _ st1 h _ st2) by done.
      unfold fetch_catch. cbn [outcome final]. by rewrite data_set_data. }
  repeat split; try done.
  intros Hnone. destruct Hcase as [[_ ->]|(h & st2 & Hm & _)]; [done|].
  by rewrite Hm in Hnone.
Qed.

(** [is_home] spelled out. *)
Lemma is_home_true pat (d : Obj) st :
  is_home pat d st = true ↔
  d !! "route" = Some (VStr (normalize (subdirectory_or_root st)))
  ∧ String.prefix "RegExp:" pat = false
  ∧ isSearch d = false.
Proof.
  unfold Source.is_home, is_string_value.
  rewrite !andb_true_iff, !negb_true_iff, bool_decide_eq_true. tauto.
Qed.

(** C6 (as amended). After a successful fetch the entry has
    [isHome = true] exactly when either its route is the normalized root
    (the subdirectory, or ["/"] without one), the matched pattern does not
    start with ["RegExp:"] and the entry is no search, or the handler
    itself had left [isHome = true] in the entry: [fetch] sets the flag
    and never clears it. *)
Theorem fetch_success_isHome st libs route options st1 h st2 d :
  fetch_begin st (normalize route) (parse route) (force_of options)
  = (st1, true) →
  getMatch HandlerFunc (handler_path (parse route) (redirections libs))
           (handlers libs) = Some h →
  match_func h (handler_ctx (normalize route) h (force_of options)) st1
  = (Normal, st2) →
  data st2 !! normalize route = Some d →
  ∃ d', data (final (fetch st libs route options)) !! normalize route
        = Some d'
    ∧ (d' !! "isHome" = Some (VBool true) ↔
       (d' !! "route" = Some (VStr (normalize (subdirectory_or_root st2)))
        ∧ String.prefix "RegExp:" (match_pattern h) = false
        ∧ isSearch d' = false)
       ∨ d !! "isHome" = Some (VBool true)).
Proof.
  intros Hb Hm Hc Hd.
  rewrite (fetch_handler_resolves _ _ _ _ st1 h st2 d) by done.
  cbn [final]. eexists. split; [apply data_set_data|].
  unfold isSearch.
  rewrite ready_props_isHome, !ready_props_other by compute_done.
  fold (isSearch d). rewrite <-is_home_true.
  destruct (is_home (match_pattern h) d st2); naive_solver.
Qed.

(** An entry that exists and is not initialized anew keeps its [isReady]
    on the way to the handler. *)
Lemma fetch_begin_keeps_isReady st link lp force st1 d0 :
  fetch_begin st link lp force = (st1, true) →
  data st !! link = Some d0 →
  truthy_bool force && isError d0 = false →
  ∃ d1, data st1 !! link = Some d1 ∧ d1 !! "isReady" = d0 !! "isReady".
Proof.
  unfold fetch_begin. intros Hb Hd Hkeep. rewrite Hd, Hkeep in Hb.
  destruct (negb _ && _); [done|]. injection Hb as <-.
  eexists. split; [apply data_set_data|].
  rewrite (lookup_insert_ne _ "isFetching" "isReady") by done.
  apply route_props_flags. compute_done.
Qed.

(** C9 (as amended). When the handler throws something that is not a
    [ServerError] and has left the [isFetching] and [isReady] flags of the
    entry of the link as it got them, the entry stays with
    [isFetching = true]. It has [isReady = false] when this call
    initialized it (the link was absent, or an error entry was fetched
    with [force]); an entry that existed and was not initialized anew, as
    in a forced fetch of an entry that is no error, keeps the [isReady] it
    had. Every later fetch of the link without [force] then returns
    without invoking a handler. *)
Theorem fetch_throw_leaves_entry_fetching st libs route options st1 h e st2 :
  fetch_begin st (normalize route) (parse route) (force_of options)
  = (st1, true) →
  getMatch HandlerFunc (handler_path (parse route) (redirections libs))
           (handlers libs) = Some h →
  match_func h (handler_ctx (normalize route) h (force_of options)) st1
  = (Throw e, st2) →
  (∀ se, e ≠ ServerError se) →
  (∀ d1, data st1 !! normalize route = Some d1 →
         ∃ d2, data st2 !! normalize route = Some d2
               ∧ d2 !! "isFetching" = d1 !! "isFetching"
               ∧ d2 !! "isReady" = d1 !! "isReady") →
  let res := fetch st libs route options in
  outcome res = Throw e
  ∧ (∃ d, data (final res) !! normalize route = Some d
      ∧ d !! "isFetching" = Some (VBool true)
      ∧ (data st !! normalize route = None
         ∨ (truthy_bool (force_of options) = true
            ∧ ∃ d0, data st !! normalize route = Some d0
                    ∧ isError d0 = true) →
         d !! "isReady" = Some (VBool false))
      ∧ (∀ d0, data st !! normalize route = Some d0 →
               truthy_bool (force_of options) && isError d0 = false →
               d !! "isReady" = d0 !! "isReady"))
  ∧ ∀ libs' route' options',
      normalize route' = normalize route →
      truthy_bool (force_of options') = false →
      let res' := fetch (final res) libs' route' options' in
      outcome res' = Normal ∧ invoked res' = [].
Proof.
  intros Hb Hm Hc Hne Hflags res. subst res.
  rewrite (fetch_handler_throws _ _ _ _ st1 h e st2) by done.
  rewrite fetch_catch_rethrows by done. cbn [outcome final].
  destruct (fetch_begin_entry _ _ _ _ _ Hb) as (d1 & Hd1 & Hfetching & Hinit).
  destruct (Hflags d1 Hd1) as (d2 & Hd2 & Hsame_fetching & Hsame_ready).
  split; [done|]. split.
  - exists d2. rewrite Hsame_fetching, Hsame_ready. repeat split; try done.
    + intros Hcase. rewrite (Hinit Hcase). apply init_data_isReady.
    + intros d0 Hd0 Hkeep.
      destruct (fetch_begin_keeps_isReady _ _ _ _ _ _ Hb Hd0 Hkeep)
        as (d1' & Hd1' & Hready).
      by simplify_eq.
  - intros libs' route' options' Hlink Hforce.
    rewrite (fetch_skips _ _ _ _ d2); [done..| |].
    + by rewrite Hlink.
    + by rewrite Hsame_fetching, Hfetching, orb_true_r.
Qed.

(** *** Two calls in a row *)

(** Whenever [fetch] returns normally, the entry of the link is settled or
    in flight: one of the two lifecycle flags is set. *)
Lemma fetch_settles st libs route options :
  outcome (fetch st libs route options) = Normal →
  ∃ d, data (final (fetch st libs route options)) !! normalize route = Some d
       ∧ truthy (d !! "isReady") || truthy (d !! "isFetching") = true.
Proof.
  unfold Source.fetch.
  destruct (fetch_begin _ _ _ _) as [st1 [|]] eqn:Hb.
  - unfold Source.fetch_try.
    destruct (getMatch HandlerFunc _ _) as [h|].
    + destruct (match_func h _ st1) as [[|e] st2].
      * destruct (data st2 !! normalize route) as [d|]; [|done].
        intros _. cbn [final]. eexists. split; [apply data_set_data|].
        by rewrite (proj2 (ready_props_flags _ _)).
      * destruct e as [se| |]; [|done..]. intros _.
        unfold fetch_catch. cbn [outcome final]. eexists.
        split; [apply data_set_data|].
        destruct (error_data_fields se (normalize route) (parse route))
          as (_ & -> & _). done.
    + intros _. unfold fetch_catch. cbn [outcome final]. eexists.
      split; [apply data_set_data|].
      destruct (error_data_fields (no_handler_error (normalize route))
                  (normalize route) (parse route)) as (_ & -> & _). done.
  - intros _. cbn [final]. revert Hb. unfold fetch_begin.
    destruct (data st !! normalize route) as [d|]; [|done].
    destruct (truthy_bool (force_of options) && isError d); [done|].
    destruct (negb _ && _) eqn:Hflags; [|done]. intros [= <-].
    eexists. split; [apply data_set_data|].
    by apply andb_true_iff in Hflags as [_ ?].
Qed.

(** X2. After a fetch that returned, a second fetch of the same route
    without [force] invokes no handler, whatever handlers are registered by
    then: the two calls together invoke at most one. *)
Lemma fetch_twice_invokes_once st libs libs' route options options' :
  outcome (fetch st libs route options) = Normal →
  truthy_bool (force_of options') = false →
  invoked (fetch (final (fetch st libs route options)) libs' route options')
  = []
  ∧ (length (invoked (fetch st libs route options)) ≤ 1)%nat.
Proof.
  intros Hout Hforce. destruct (fetch_settles _ _ _ _ Hout) as (d & Hd & Hfl).
  split.
  - by rewrite (fetch_skips _ _ _ _ d).
  - unfold Source.fetch.
    destruct (fetch_begin _ _ _ _) as [st1 [|]]; [|simpl; lia].
    unfold Source.fetch_try.
    destruct (getMatch HandlerFunc _ _) as [h|]; [|simpl; lia].
    destruct (match_func h _ st1) as [[|e] st2].
    + destruct (data st2 !! normalize route); simpl; lia.
    + unfold fetch_catch. cbn [outcome]. destruct e; simpl; lia.
Qed.

(** *** Further properties of [fetch] *)

(** Lines 31-59 write nothing but the entry of the link. *)
Lemma fetch_begin_writes st link lp force st1 b :
  fetch_begin st link lp force = (st1, b) → ∃ d, st1 = set_data st link d.
Proof.
  unfold fetch_begin. destruct (data st !! link) as [d0|].
  - destruct (truthy_bool force && isError d0); [intros [= <- _]; eauto|].
    destruct (negb _ && _); intros [= <- _]; [eauto|].
    rewrite set_data_twice. eauto.
  - intros [= <- _]. eauto.
Qed.

(** The four reassigned properties hold the parsed values afterwards. *)
Lemma route_props_assigned (d : Obj) link lp :
  Forall (λ kv, assign d (route_props link lp) !! kv.1 = Some kv.2)
         (route_props link lp).
Proof.
  unfold route_props, assign. repeat constructor; simpl; by simplify_map_eq.
Qed.

Lemma error_data_route_props e link lp :
  Forall (λ kv, error_data e link lp !! kv.1 = Some kv.2)
         (route_props link lp).
Proof.
  destruct (error_data_fields e link lp)
    as (_ & _ & _ & _ & _ & _ & ? & ? & ? & ? & _).
  unfold route_props. by repeat constructor.
Qed.

(** X1. A fetch that went past the early return and returns normally has
    settled the entry of the link: the entry exists, with
    [isFetching = false] and [isReady = true], on success and on a
    recorded error alike. *)
Theorem fetch_returns_settled st libs route options st1 :
  fetch_begin st (normalize route) (parse route) (force_of options)
  = (st1, true) →
  outcome (fetch st libs route options) = Normal →
  ∃ d, data (final (fetch st libs route options)) !! normalize route = Some d
       ∧ d !! "isFetching" = Some (VBool false)
       ∧ d !! "isReady" = Some (VBool true).
Proof.
  intros Hb. unfold Source.fetch. rewrite Hb. unfold Source.fetch_try.
  destruct (getMatch HandlerFunc _ _) as [h|].
  - destruct (match_func h _ st1) as [[|e] st2].
    + destruct (data st2 !! normalize route) as [d|]; [|done].
      intros _. cbn [final]. eexists. split; [apply data_set_data|].
      destruct (ready_props_flags d (is_home (match_pattern h) d st2)).
      done.
    + destruct e as [se| |]; [|done..]. intros _.
      unfold fetch_catch. cbn [outcome final]. eexists.
      split; [apply data_set_data|].
      by destruct (error_data_fields se (normalize route) (parse route))
        as (_ & ? & ? & _).
  - intros _. unfold fetch_catch. cbn [outcome final]. eexists.
    split; [apply data_set_data|].
    by destruct (error_data_fields (no_handler_error (normalize route))
                   (normalize route) (parse route)) as (_ & ? & ? & _).
Qed.

(** Writing an entry leaves the settings alone and adds its link to the
    links of the cache. *)
Lemma settings_set_data st link d : settings (set_data st link d) = settings st.
Proof. reflexivity. Qed.

Lemma dom_set_data st link d :
  dom (data (set_data st link d)) = {[link]} ∪ dom (data st).
Proof. unfold set_data; simpl. apply dom_insert_L. Qed.

(** X3. A fetch that invokes no handler leaves every setting of the state
    as it was, and the links of the cache are afterwards the ones from
    before together with its own: it removes no entry and adds none under
    another link. *)
Theorem fetch_without_handler_keeps_links st libs route options :
  invoked (fetch st libs route options) = [] →
  settings (final (fetch st libs route options)) = settings st
  ∧ dom (data (final (fetch st libs route options)))
    = {[normalize route]} ∪ dom (data st).
Proof.
  unfold Source.fetch.
  destruct (fetch_begin _ _ _ _) as [st1 b] eqn:Hb.
  destruct (fetch_begin_writes _ _ _ _ _ _ Hb) as (d0 & ->).
  destruct b; [|intros _; cbn [final]; by rewrite dom_set_data].
  unfold Source.fetch_try.
  destruct (getMatch HandlerFunc _ _) as [h|].
  - destruct (match_func h _ _) as [[|e] st2].
    + by destruct (data st2 !! normalize route).
    + unfold fetch_catch. cbn [outcome invoked]. by destruct e.
  - intros _. unfold fetch_catch. cbn [outcome final].
    by rewrite set_data_twice, dom_set_data.
Qed.

(** X4. Around a handler call [fetch] itself changes no setting, removes
    no entry of the cache and adds none under another link than its own:
    this holds from the initial state to the one the handler starts from,
    and from the state the handler left to the final one. *)
Theorem fetch_with_handler_keeps_links st libs route options st1 h c st2 :
  fetch_begin st (normalize route) (parse route) (force_of options)
  = (st1, true) →
  getMatch HandlerFunc (handler_path (parse route) (redirections libs))
           (handlers libs) = Some h →
  match_func h (handler_ctx (normalize route) h (force_of options)) st1
  = (c, st2) →
  settings st1 = settings st
  ∧ dom (data st1) = {[normalize route]} ∪ dom (data st)
  ∧ settings (final (fetch st libs route options)) = settings st2
  ∧ dom (data st2) ⊆ dom (data (final (fetch st libs route options)))
  ∧ dom (data (final (fetch st libs route options)))
    ⊆ {[normalize route]} ∪ dom (data st2).
Proof.
  intros Hb Hm Hc.
  destruct (fetch_begin_writes _ _ _ _ _ _ Hb) as (d0 & Hst1).
  split; [by rewrite Hst1|]. split; [by rewrite Hst1, dom_set_data|].
  unfold Source.fetch, Source.fetch_try. rewrite Hb, Hm, Hc.
  assert (∀ d, dom (data st2) ⊆ dom (data (set_data st2 (normalize route) d))
               ∧ dom (data (set_data st2 (normalize route) d))
                 ⊆ {[normalize route]} ∪ dom (data st2)) as Hset.
  { intros d. rewrite dom_set_data. set_solver. }
  assert (dom (data st2) ⊆ dom (data st2)
          ∧ dom (data st2) ⊆ {[normalize route]} ∪ dom (data st2)) as Hsame
    by set_solver.
  destruct c as [|e].
  - destruct (data st2 !! normalize route) as [d|]; cbn [final];
      [by destruct (Hset (assign d (ready_props
                                      (is_home (match_pattern h) d st2))))
      |by destruct Hsame].
  - unfold fetch_catch. cbn [outcome final].
    destruct e as [se| |]; cbn [final];
      [by destruct (Hset (error_data se (normalize route) (parse route)))
      |by destruct Hsame..].
Qed.


(** X6. An error record carries the flag [is<S>] for its own status and
    for no other number. *)
Theorem error_data_status_flag e link lp s :
  error_data e link lp !! ("is" ++ number_to_string s) = Some (VBool true)
  ↔ s = se_status e.
Proof.
  destruct (error_data_fields e link lp)
    as (_ & _ & _ & Hflag & _ & _ & _ & _ & _ & _ & Hnone).
  split; [|by intros ->].
  intros Hs. destruct (decide (s = se_status e)) as [|Hne]; [done|].
  rewrite Hnone in Hs; [done|].
  pose proof (status_flag_fresh s) as Hfresh.
  pose proof (status_flag_not_later s) as Hlater.
  unfold error_keys. rewrite !not_elem_of_cons in Hfresh.
  rewrite !not_elem_of_cons in Hlater. rewrite !not_elem_of_cons.
  destruct Hfresh as (? & ? & ? & _).
  destruct Hlater as (? & ? & ? & ? & ? & ? & _).
  repeat split; try done; [|apply not_elem_of_nil].
  simpl. intros [= Heq]. cbv [String.append] in Heq.
  unfold number_to_string in Heq. by apply (inj pretty) in Heq.
Qed.

(** X7. When the handler resolves but has removed the entry of the link,
    [fetch] throws a [TypeError] and writes nothing: the state is the one
    the handler left, and the entry stays absent. *)
Theorem fetch_removed_entry_throws st libs route options st1 h st2 :
  fetch_begin st (normalize route) (parse route) (force_of options)
  = (st1, true) →
  getMatch HandlerFunc (handler_path (parse route) (redirections libs))
           (handlers libs) = Some h →
  match_func h (handler_ctx (normalize route) h (force_of options)) st1
  = (Normal, st2) →
  data st2 !! normalize route = None →
  (∃ message, outcome (fetch st libs route options)
              = Throw (TypeError message))
  ∧ final (fetch st libs route options) = st2.
Proof.
  intros Hb Hm Hc Hd. unfold Source.fetch, Source.fetch_try.
  rewrite Hb, Hm, Hc, Hd. unfold fetch_catch. cbn [outcome final]. eauto.
Qed.

(** X8. The early return is idempotent: once an unforced fetch has
    returned early, repeating it, with whatever handlers, gives the same
    result and leaves the state exactly as it is. *)
Theorem fetch_skip_idempotent st libs libs' route options options' d :
  truthy_bool (force_of options) = false →
  truthy_bool (force_of options') = false →
  data st !! normalize route = Some d →
  truthy (d !! "isReady") || truthy (d !! "isFetching") = true →
  fetch (final (fetch st libs route options)) libs' route options'
  = fetch st libs route options.
Proof.
  intros Hf Hf' Hd Hflags.
  rewrite (fetch_skips st libs route options d) by done. cbn [final].
  rewrite (fetch_skips _ libs' route options'
             (assign d (route_props (normalize route) (parse route))));
    [|done|apply data_set_data|].
  - rewrite (assign_id _ (assign d _)) by apply route_props_assigned.
    by rewrite set_data_twice.
  - by rewrite !route_props_flags by compute_done.
Qed.

(** X9. A recorded error is not retried on its own: after a fetch that
    ended in an error record, every fetch of the route without [force]
    returns at once, invokes no handler, whatever handlers are registered
    by then, and leaves the state, error record included, exactly as it
    is. *)
Theorem fetch_error_is_sticky st libs libs' route options options' st1 e :
  fetch_begin st (normalize route) (parse route) (force_of options)
  = (st1, true) →
  (getMatch HandlerFunc (handler_path (parse route) (redirections libs))
            (handlers libs) = None
   ∧ e = no_handler_error (normalize route))
  ∨ (∃ h st2,
       getMatch HandlerFunc (handler_path (parse route) (redirections libs))
                (handlers libs) = Some h
       ∧ match_func h (handler_ctx (normalize route) h (force_of options)) st1
         = (Throw (ServerError e), st2)) →
  truthy_bool (force_of options') = false →
  fetch (final (fetch st libs route options)) libs' route options'
  = {| outcome := Normal; final := final (fetch st libs route options);
       invoked := [] |}.
Proof.
  intros Hb Hcase Hf'.
  assert (data (final (fetch st libs route options)) !! normalize route
          = Some (error_data e (normalize route) (parse route))) as Hd.
  { destruct Hcase as [[Hm ->]|(h & st2 & Hm & Hc)].
    - rewrite (fetch_no_handler _ _ _ _ st1) by done.
      cbn [final]. apply data_set_data.
    - rewrite (fetch_handler_throws _ _ _ _ st1 h _ st2) by done.
      unfold fetch_catch. cbn [outcome final]. apply data_set_data. }
  rewrite (fetch_skips _ libs' route options' _ Hf' Hd).
  - by rewrite assign_id, set_data_id by (done || apply error_data_route_props).
  - by destruct (error_data_fields e (normalize route) (parse route))
      as (_ & -> & _).
Qed.

End FetchProperties.

(** ** The handler registry built by [init] *)

Section InitProperties.

Variable concatLink : list (option string) → string.
Variable valid_URL : string → bool.
Variable error : string → Completion.
Variable wpOrg wpCom : list (Pattern HandlerFunc).
Variable postTypeHandler : list string → HandlerFunc.
Variable postTypeArchiveHandler : string → string → HandlerFunc.
Variable postTypeWithQueryHandler : string → string → HandlerFunc.
Variable taxonomyHandler : Taxonomy → HandlerFunc.

Local Abbreviation single_entry :=
  (Source.single_entry concatLink postTypeHandler).
Local Abbreviation query_entry :=
  (Source.query_entry postTypeWithQueryHandler).
Local Abbreviation archive_entry :=
  (Source.archive_entry concatLink postTypeArchiveHandler).
Local Abbreviation push_post_type :=
  (Source.push_post_type concatLink postTypeHandler postTypeArchiveHandler
     postTypeWithQueryHandler).
Local Abbreviation entries_of :=
  (Source.entries_of concatLink postTypeHandler postTypeArchiveHandler
     postTypeWithQueryHandler).
Local Abbreviation push_taxonomy :=
  (Source.push_taxonomy concatLink taxonomyHandler).
Local Abbreviation init :=
  (Source.init concatLink valid_URL error wpOrg wpCom postTypeHandler
     postTypeArchiveHandler postTypeWithQueryHandler taxonomyHandler).

Lemma push_post_type_app hs pt :
  push_post_type hs pt = (hs ++ entries_of pt)%list.
Proof.
  unfold Source.push_post_type, Source.entries_of, push.
  destruct (truthy_str (pt_archive pt)); by rewrite <-?app_assoc.
Qed.

(** The loop over the post types appends their entries in order. *)
Lemma foldl_push_post_type pts hs :
  foldl push_post_type hs pts = (hs ++ concat (entries_of <$> pts))%list.
Proof.
  revert hs. induction pts as [|pt pts IH]; intros hs; simpl.
  - by rewrite app_nil_r.
  - by rewrite IH, push_post_type_app, <-app_assoc.
Qed.

(** The loop over the taxonomies appends one entry for each. *)
Lemma foldl_push_taxonomy ts hs :
  ∃ added, foldl push_taxonomy hs ts = (hs ++ added)%list
           ∧ length added = length ts.
Proof.
  revert hs. induction ts as [|t ts IH]; intros hs; simpl.
  - exists []. by rewrite app_nil_r.
  - destruct (IH (push_taxonomy hs t)) as (added & -> & Hlen).
    unfold Source.push_taxonomy at 1, push. eexists (_ :: added).
    rewrite <-app_assoc. simpl. by rewrite Hlen.
Qed.

Lemma entries_of_registered pt :
  Stated.registered_for concatLink pt (entries_of pt).
Proof.
  exists (single_entry pt), (query_entry pt).
  repeat split.
  unfold Source.entries_of. destruct (pt_archive pt) as [a|] eqn:Ha; simpl.
  - destruct (bool_decide (a = "")) eqn:Hempty; simpl; [by left|].
    apply bool_decide_eq_false in Hempty.
    right. exists a, (archive_entry pt).
    repeat split; simpl; by rewrite ?Ha.
  - by left.
Qed.

(** A group that is registered for a post type has three entries when
    the post type has an archive, and two when it has none. *)
Lemma registered_for_length pt entries :
  Stated.registered_for concatLink pt entries →
  length entries = (2 + Nat.b2n (truthy_str (pt_archive pt)))%nat.
Proof.
  intros (single & query & _ & _ & _ & _ & _ & _ & Hcase).
  destruct Hcase as [[-> ->]|(a & archive & -> & Ha & _ & _ & _ & ->)];
    [done|].
  simpl. by rewrite bool_decide_eq_false_2.
Qed.

(** With a subdirectory configured, the last redirection [init] pushes
    is the reverse rule on the catch-all pattern, and its function returns
    the empty string for every match. *)
Lemma push_redirections_reverse_rule st rs :
  truthy_str (subdirectory st) = true →
  ∃ earlier rule,
    Source.push_redirections concatLink st rs = (earlier ++ [rule])%list
    ∧ name rule = "subdirectory (reverse)"
    ∧ pattern rule = "/(.*)"
    ∧ ∀ params, func rule params = "".
Proof.
  intros Hsub. unfold Source.push_redirections. rewrite Hsub. unfold push at 1.
  eexists (_ ++ [_])%list, _. split; [by rewrite <-app_assoc|done].
Qed.

(** C7. When [init] returns, the handlers are the previous ones, then the
    built-in patterns, then for every custom post type, in order, its
    group of entries, then one entry for each taxonomy. The group of a
    post type is a single-item entry of priority 10 on
    [concatLink(type, "/:slug")], a query-permalink entry of priority 9
    whose pattern starts with ["RegExp:"], and an archive entry of
    priority 10 exactly when the post type declares an archive: the group
    has the archive entry when [archive] is a string that is not empty, and
    consists of the two other entries when it is not. For the one post
    type [{type: "movie", endpoint: "movies"}] the groups are exactly the
    single and the query-permalink entry. *)
Theorem init_registers_post_types authFromEnv st libs st' libs' :
  init authFromEnv st libs = (Normal, st', libs') →
  ∃ groups added,
    handlers libs'
    = (handlers libs ++ (if isWpCom st then wpCom else wpOrg)
       ++ concat groups ++ added)%list
    ∧ Forall2 (Stated.registered_for concatLink) (postTypes st) groups
    ∧ length added = length (taxonomies st)
    ∧ (postTypes st
       = [{| pt_type := "movie"; pt_endpoint := "movies";
             pt_archive := None |}] →
       concat groups
       = [{| name := "movie"; priority := 10;
             pattern := concatLink [Some "movie"; Some "/:slug"];
             func := postTypeHandler ["movies"] |};
          {| name := "movie with query permalink"; priority := 9;
             pattern := "RegExp:(\?|&)p=\d+&post_type=movie";
             func := postTypeWithQueryHandler "movie" "movies" |}]).
Proof.
  unfold Source.init.
  destruct (if valid_URL (api st) then Normal else error _); [|done].
  intros [= _ <-]. cbn [handlers].
  set (st0 := if truthy_str (sourceAuth st) || truthy_str authFromEnv
              then _ else st).
  assert (isWpCom st0 = isWpCom st ∧ postTypes st0 = postTypes st
          ∧ taxonomies st0 = taxonomies st) as (-> & -> & ->).
  { subst st0. by destruct (_ || _). }
  rewrite foldl_push_post_type.
  destruct (foldl_push_taxonomy (taxonomies st)
              (push (handlers libs) (if isWpCom st then wpCom else wpOrg)
               ++ concat (entries_of <$> postTypes st)))
    as (added & -> & Hlen).
  exists (entries_of <$> postTypes st), added.
  split; [unfold push; by rewrite <-!app_assoc|].
  split; [|split; [done|]].
  - apply Forall2_fmap_r, Forall_Forall2_diag, Forall_forall.
    intros pt _. apply entries_of_registered.
  - by intros ->.
Qed.

(** *** Further properties of [init] *)

Local Abbreviation push_redirections := (Source.push_redirections concatLink).

Lemma set_auth_id st : set_auth st (auth st) = st.
Proof. by destruct st. Qed.

(** What [init] leaves when it returns, in terms of the state it got. *)
Lemma init_normal authFromEnv st libs st' libs' :
  init authFromEnv st libs = (Normal, st', libs') →
  st' = set_auth st (Source.stored_auth authFromEnv st)
  ∧ handlers libs'
    = foldl push_taxonomy
        (foldl push_post_type
           (push (handlers libs) (if isWpCom st then wpCom else wpOrg))
           (postTypes st))
        (taxonomies st)
  ∧ redirections libs' = push_redirections st (redirections libs)
  ∧ api_init libs' = Some (api st, isWpCom st).
Proof.
  unfold Source.init, Source.stored_auth, Source.or_str.
  destruct (if valid_URL (api st) then Normal else error _); [|done].
  destruct (truthy_str (sourceAuth st)); simpl.
  - by intros [= <- <-].
  - destruct (truthy_str authFromEnv); intros [= <- <-]; [done|].
    by rewrite set_auth_id.
Qed.

Lemma foldl_push_taxonomy_map ts hs :
  foldl push_taxonomy hs ts
  = (hs ++ ((λ t, {| name := tax_taxonomy t;
                     priority := 10%Z;
                     pattern := concatLink [Some (tax_taxonomy t);
                                            Some "/(.*)?/:slug"];
                     func := taxonomyHandler t |}) <$> ts))%list.
Proof.
  revert hs. induction ts as [|t ts IH]; intros hs; simpl.
  - by rewrite app_nil_r.
  - rewrite IH. unfold Source.push_taxonomy, push. by rewrite <-app_assoc.
Qed.

Lemma length_entries_of pt :
  length (entries_of pt) = (2 + Nat.b2n (truthy_str (pt_archive pt)))%nat.
Proof. unfold Source.entries_of. by destruct (truthy_str _). Qed.

Lemma length_concat_entries_of pts :
  length (concat (entries_of <$> pts))
  = (2 * length pts
     + length (List.filter (λ pt, truthy_str (pt_archive pt)) pts))%nat.
Proof.
  induction pts as [|pt pts IH]; [done|].
  rewrite fmap_cons, concat_cons, length_app, length_entries_of, IH.
  simpl. destruct (truthy_str (pt_archive pt)); simpl; lia.
Qed.

(** X10. When [init] returns, the only part of the state it has written
    is [state.source.auth]: it holds the token of the frontity options if
    there is one, else the token of the environment if there is one, and
    else what it held before. The cache and every setting are untouched,
    and the API client was initialized with [api] and [isWpCom]. *)
Theorem init_writes_only_auth authFromEnv st libs st' libs' :
  init authFromEnv st libs = (Normal, st', libs') →
  st' = set_auth st (Source.stored_auth authFromEnv st)
  ∧ data st' = data st
  ∧ (truthy_str (sourceAuth st) = true → auth st' = sourceAuth st)
  ∧ (truthy_str (sourceAuth st) = false → truthy_str authFromEnv = true →
     auth st' = authFromEnv)
  ∧ (truthy_str (sourceAuth st) = false → truthy_str authFromEnv = false →
     st' = st)
  ∧ api_init libs' = Some (api st, isWpCom st).
Proof.
  intros Hinit. destruct (init_normal _ _ _ _ _ Hinit) as (-> & _ & _ & ->).
  unfold Source.stored_auth. repeat split.
  - by intros ->.
  - by intros -> ->.
  - intros -> ->. apply set_auth_id.
Qed.

(** X11. [init] only appends handlers: the ones registered before stay in
    front, and it adds the built-in patterns, two entries for every custom
    post type, one more for every post type with an archive, and one for
    every taxonomy. Calling it again registers all of them again. *)
Theorem init_handlers_count authFromEnv st libs st' libs' :
  init authFromEnv st libs = (Normal, st', libs') →
  (∃ added, handlers libs' = (handlers libs ++ added)%list)
  ∧ length (handlers libs')
    = (length (handlers libs)
       + length (if isWpCom st then wpCom else wpOrg)
       + 2 * length (postTypes st)
       + length (List.filter (λ pt, truthy_str (pt_archive pt))
                   (postTypes st))
       + length (taxonomies st))%nat.
Proof.
  intros Hinit. destruct (init_normal _ _ _ _ _ Hinit) as (_ & -> & _).
  rewrite foldl_push_taxonomy_map, foldl_push_post_type. unfold push.
  split.
  - eexists. by rewrite <-!app_assoc.
  - rewrite !length_app, length_fmap, length_concat_entries_of. lia.
Qed.

(** X12. The last handlers after [init] are the ones of the custom
    taxonomies, one for each in the order of the configuration, named
    after the taxonomy, of priority 10, on the pattern [concatLink] makes
    of the taxonomy and the template for a nested path ending in
    [:slug]. *)
Theorem init_taxonomy_entries authFromEnv st libs st' libs' :
  init authFromEnv st libs = (Normal, st', libs') →
  ∃ before,
    handlers libs'
    = (before
       ++ ((λ t, {| name := tax_taxonomy t;
                    priority := 10%Z;
                    pattern := concatLink [Some (tax_taxonomy t);
                                           Some "/(.*)?/:slug"];
                    func := taxonomyHandler t |}) <$> taxonomies st))%list.
Proof.
  intros Hinit. destruct (init_normal _ _ _ _ _ Hinit) as (_ & -> & _).
  rewrite foldl_push_taxonomy_map. eauto.
Qed.

(** X13. [init] only appends redirections, all of priority 10: one for a
    homepage, one for a posts page, and a pair for each of the category,
    tag and author bases and for the subdirectory, as far as they are
    configured. With none of them configured the redirections are left as
    they were. *)
Theorem init_redirections authFromEnv st libs st' libs' :
  init authFromEnv st libs = (Normal, st', libs') →
  ∃ added,
    redirections libs' = (redirections libs ++ added)%list
    ∧ Forall (λ r, priority r = 10%Z) added
    ∧ length added
      = (Nat.b2n (truthy_str (homepage st))
         + Nat.b2n (truthy_str (postsPage st))
         + 2 * Nat.b2n (truthy_str (categoryBase st))
         + 2 * Nat.b2n (truthy_str (tagBase st))
         + 2 * Nat.b2n (truthy_str (authorBase st))
         + 2 * Nat.b2n (truthy_str (subdirectory st)))%nat.
Proof.
  intros Hinit. destruct (init_normal _ _ _ _ _ Hinit) as (_ & _ & -> & _).
  unfold Source.push_redirections, Source.push_base, push.
  destruct (truthy_str (homepage st)), (truthy_str (postsPage st)),
    (truthy_str (categoryBase st)), (truthy_str (tagBase st)),
    (truthy_str (authorBase st)), (truthy_str (subdirectory st));
    rewrite <-?app_assoc;
    first [eexists; split; [reflexivity|]
          |exists []; split; [by rewrite app_nil_r|]];
    simpl; (split; [by repeat constructor|done]).
Qed.

(** X14. With a subdirectory configured, the last two redirections after
    [init] are its pair. The forward rule returns a route that starts and
    ends with a slash, whatever was captured: the root when the subpath is
    missing or empty, and the subpath between slashes otherwise. The
    reverse rule, on the catch-all pattern, returns the empty route for
    every match. *)
Theorem init_subdirectory_rules authFromEnv st libs st' libs' :
  init authFromEnv st libs = (Normal, st', libs') →
  truthy_str (subdirectory st) = true →
  ∃ earlier forward reverse,
    redirections libs' = (earlier ++ [forward; reverse])%list
    ∧ pattern forward = concatLink [subdirectory st; Some "/:subpath*"]
    ∧ (∀ params,
         (∃ rest, func forward params = "/" ++ rest)
         ∧ (∃ front, func forward params = front ++ "/")
         ∧ (default "" (params !! "subpath") = "" →
            func forward params = "/")
         ∧ (∀ s, params !! "subpath" = Some s → s ≠ "" →
                 func forward params = "/" ++ s ++ "/"))
    ∧ pattern reverse = "/(.*)"
    ∧ ∀ params, func reverse params = "".
Proof.
  intros Hinit Hsub.
  destruct (init_normal _ _ _ _ _ Hinit) as (_ & _ & -> & _).
  unfold Source.push_redirections. rewrite Hsub. unfold push at 1.
  eexists _, _, _. split; [reflexivity|]. split; [done|].
  split; [|done]. intros params. cbn [func].
  destruct (params !! "subpath") as [s|] eqn:Hp; simpl.
  - destruct (bool_decide (s = "")) eqn:Hs.
    + apply bool_decide_eq_true in Hs as ->.
      split; [by exists ""|]. split; [by exists ""|]. split; [done|].
      by intros s' [= <-] Hne.
    + apply bool_decide_eq_false in Hs.
      split; [eauto|]. split; [|split; [done|by intros s' [= <-] _]].
      exists ("/" ++ s). apply string_append_assoc.
  - split; [by exists ""|]. split; [by exists ""|]. by split.
Qed.

(** X16. [afterSSR] undoes what [init] stored: after [init] and
    [afterSSR] the state holds no token, neither in [state.source.auth]
    nor in the frontity options, whatever the options and the environment
    provided, and the cache is the one from before [init]. *)
Theorem afterSSR_removes_tokens authFromEnv st libs st' libs' :
  init authFromEnv st libs = (Normal, st', libs') →
  afterSSR st' = afterSSR st
  ∧ auth (afterSSR st') = None
  ∧ sourceAuth (afterSSR st') = None
  ∧ data (afterSSR st') = data st.
Proof.
  intros Hinit. by destruct (init_normal _ _ _ _ _ Hinit) as (-> & _).
Qed.

End InitProperties.

(** ** The router's [set] *)

(** C8 (as amended). For every call of [set]: the link is normalized when
    the source library provides [normalize]; a history entry is pushed
    when the method is ["push"] or when no method is given on the client,
    replaced when the method is ["replace"], and left alone otherwise, as
    in pop mode; a fetch of the link is triggered exactly when an entry
    was pushed or replaced, [autoFetch] is on and the source actions
    exist, so never in pop mode; and [state.router.link] and
    [state.router.state] take the new values in every mode. *)
Theorem set_updates_router normalize has_source_actions st l options :
  let res := Router.set normalize has_source_actions st l options in
  let l' := match normalize with Some f => f l | None => l end in
  let payload := default ∅ (options ≫= Router.opt_state) in
  let meth := options ≫= Router.method in
  let pushes :=
    meth = Some "push"
    ∨ (truthy_str meth = false ∧ Router.platform st = "client") in
  let replaces := ¬ pushes ∧ meth = Some "replace" in
  Router.link (fst res) = l'
  ∧ Router.state (fst res) = payload
  ∧ Router.autoFetch (fst res) = Router.autoFetch st
  ∧ (∀ p u, Router.PushState p u ∈ snd res ↔ p = payload ∧ u = l' ∧ pushes)
  ∧ (∀ p u, Router.ReplaceState p u ∈ snd res
            ↔ p = payload ∧ u = l' ∧ replaces)
  ∧ (∀ u, Router.Fetch u ∈ snd res
          ↔ u = l' ∧ Router.autoFetch st = true
            ∧ has_source_actions = true ∧ (pushes ∨ replaces))
  ∧ (meth = Some "pop" → snd res = []).
Proof.
  intros res l' payload meth pushes replaces.
  subst res. unfold Router.set. fold l' payload meth. cbn [fst snd Router.link
    Router.state Router.autoFetch].
  assert (bool_decide (meth = Some "push")
          || negb (truthy_str meth)
             && bool_decide (Router.platform st = "client") = true ↔ pushes)
    as Hpush.
  { subst pushes. rewrite orb_true_iff, andb_true_iff, negb_true_iff,
      !bool_decide_eq_true. tauto. }
  unfold Router.trigger_fetch.
  destruct (bool_decide (meth = Some "push") || _) eqn:Hp.
  - assert pushes as HP by (by apply Hpush).
    assert (¬ replaces) by (subst replaces; tauto).
    assert (meth ≠ Some "pop").
    { intros Hpop. subst pushes. rewrite Hpop in HP. simpl in HP.
      by destruct HP as [?|[? _]]. }
    destruct (Router.autoFetch st), has_source_actions;
      repeat split; intros; rewrite ?elem_of_cons, ?elem_of_nil in *;
      naive_solver.
  - assert (¬ pushes) as HP.
    { intros HP. by apply Hpush in HP. }
    destruct (bool_decide (meth = Some "replace")) eqn:Hr;
      [apply bool_decide_eq_true in Hr|apply bool_decide_eq_false in Hr].
    + assert replaces by done.
      assert (meth ≠ Some "pop") by (by rewrite Hr).
      destruct (Router.autoFetch st), has_source_actions;
        repeat split; intros; rewrite ?elem_of_cons, ?elem_of_nil in *;
        naive_solver.
    + assert (¬ replaces) by (by intros [_ ?]).
      repeat split; intros; rewrite ?elem_of_nil in *; naive_solver.
Qed.

(** ** The router's [init], its [popstate] listener and [beforeSSR] *)

(** X17. The [popstate] listener never touches the history and never
    triggers a fetch, even with [autoFetch] on. For an event that carries a
    state it stores the normalized address and that state in the router;
    for an event without state it does nothing at all. *)
Theorem popstate_only_updates_router
    normalize has_source_actions st address event_state :
  let res := RouterLifecycle.popstate_listener normalize has_source_actions
               st address event_state in
  snd res = []
  ∧ Router.autoFetch (fst res) = Router.autoFetch st
  ∧ Router.platform (fst res) = Router.platform st
  ∧ match event_state with
    | Some payload =>
      Router.link (fst res)
      = match normalize with Some f => f address | None => address end
      ∧ Router.state (fst res) = payload
    | None => fst res = st
    end.
Proof. by destruct event_state. Qed.

Section RouterInitProperties.

Import RouterLifecycle.

Variable parse_query : string → list (string * string).
Variable serialize_query : list (string * string) → string.

Local Abbreviation init := (RouterLifecycle.init parse_query serialize_query).

Lemma filter_filter_and {A} (f g : A → bool) (l : list A) :
  List.filter f (List.filter g l) = List.filter (λ x, g x && f x) l.
Proof.
  induction l as [|x l IH]; [done|]. simpl.
  destruct (g x); simpl; [destruct (f x)|]; by rewrite IH.
Qed.

Lemma filter_all {A} (f : A → bool) (l : list A) :
  (∀ x, In x l → f x = true) → List.filter f l = l.
Proof.
  induction l as [|x l IH]; [done|]. intros Hall. simpl.
  rewrite (Hall x) by (by left). f_equal. apply IH.
  intros y Hy. apply Hall. by right.
Qed.

(** The loop over the keys [ks] deletes the parameters whose key is one
    of [ks] and starts with ["frontity_"]. *)
Lemma foldl_delete_param ks (params : list (string * string)) :
  foldl (λ ps key,
           if String.prefix "frontity_" key then delete_param key ps else ps)
        params ks
  = List.filter (λ p, negb (String.prefix "frontity_" p.1
                            && bool_decide (p.1 ∈ ks))) params.
Proof.
  revert params. induction ks as [|k ks IH]; intros params; simpl.
  - symmetry. apply filter_all. intros p _. by rewrite andb_false_r.
  - rewrite IH. destruct (String.prefix "frontity_" k) eqn:Hk.
    + unfold delete_param. rewrite filter_filter_and.
      apply filter_ext. intros p.
      destruct (decide (p.1 = k)) as [->|Hne].
      * rewrite Hk, (bool_decide_eq_true_2 (k = k)) by done. simpl.
        by rewrite bool_decide_eq_true_2 by (apply elem_of_cons; by left).
      * rewrite (bool_decide_eq_false_2 (p.1 = k)) by done. simpl.
        f_equal. f_equal. apply bool_decide_ext.
        rewrite elem_of_cons. naive_solver.
    + apply filter_ext. intros p. f_equal.
      destruct (decide (p.1 = k)) as [->|Hne].
      * by rewrite Hk.
      * f_equal. apply bool_decide_ext. rewrite elem_of_cons. naive_solver.
Qed.

(** The loop of lines 92-94 keeps exactly the parameters whose key does
    not start with ["frontity_"], in their order. *)
Lemma remove_frontity_options_filter params :
  remove_frontity_options params
  = List.filter (λ p, negb (String.prefix "frontity_" p.1)) params.
Proof.
  unfold remove_frontity_options. rewrite foldl_delete_param.
  apply filter_ext_in. intros p Hp.
  rewrite (bool_decide_eq_true_2 (p.1 ∈ params.*1)), andb_true_r; [done|].
  apply list_elem_of_fmap. exists p. split; [done|]. by apply list_elem_of_In.
Qed.

Lemma existsb_frontity_options (params : list (string * string)) :
  existsb (String.prefix "frontity_") (params.*1) = false
  ↔ List.filter (λ p, negb (String.prefix "frontity_" p.1)) params = params.
Proof.
  induction params as [|p params IH]; [done|]. simpl.
  rewrite orb_false_iff, IH.
  destruct (String.prefix "frontity_" p.1); simpl.
  - split; [by intros [? _]|]. intros Heq.
    assert (length (List.filter
                      (λ p, negb (String.prefix "frontity_" p.1)) params)
            ≤ length params)%nat as Hle by apply filter_length_le.
    rewrite Heq in Hle. simpl in Hle. lia.
  - split; [intros [_ ->]; done|]. by intros [= ->].
Qed.

(** X18. On the client, [init] replaces the history entry once, by the
    state of the router and the link of the browser, and never pushes one.
    That link is the normalized address without the parameters whose key
    starts with ["frontity_"]: all other parameters are kept in their
    order, the search string is left as it is when there is nothing to
    remove, and it is empty when nothing remains. When the link differs
    from the initial link, the router takes it, and the cache entry of the
    link is made an alias of the one of the initial link if there is a
    source state; when it is the same, the router is left as it is. The
    [popstate] listener is registered last. *)
Theorem router_init_client normalize initialLink has_source_state loc st :
  Router.platform st ≠ "server" →
  let params := parse_query (search loc) in
  let kept :=
    List.filter (λ p, negb (String.prefix "frontity_" p.1)) params in
  let search' :=
    if bool_decide (kept = params) then search loc
    else match kept with [] => "" | _ => "?" ++ serialize_query kept end in
  let address := pathname loc ++ search' ++ hash loc in
  let l := match normalize with Some f => f address | None => address end in
  let res := init normalize initialLink has_source_state loc st in
  Forall (λ p, String.prefix "frontity_" p.1 = false) kept
  ∧ snd res
    = ([ReplaceState (Router.state st) l]
       ++ (if negb (bool_decide (l = initialLink)) && has_source_state
           then [AliasData l initialLink] else [])
       ++ [ListenPopstate])%list
  ∧ Router.link (fst res)
    = (if bool_decide (l = initialLink) then Router.link st else l)
  ∧ Router.state (fst res) = Router.state st
  ∧ Router.autoFetch (fst res) = Router.autoFetch st
  ∧ Router.platform (fst res) = Router.platform st.
Proof.
  intros Hclient params kept search' address l res.
  split.
  { apply Forall_forall. intros p Hp. apply list_elem_of_In in Hp.
    subst kept. apply filter_In in Hp as [_ Hp]. by apply negb_true_iff. }
  assert (browser_link parse_query serialize_query normalize loc = l) as Hl.
  { unfold browser_link, search_after. fold params.
    rewrite remove_frontity_options_filter. fold kept.
    subst l address search'.
    destruct (existsb _ _) eqn:Hex.
    - rewrite bool_decide_eq_false_2.
      + subst kept. by destruct (List.filter _ _).
      + intros Heq. apply existsb_frontity_options in Heq.
        fold params in Heq. by rewrite Heq in Hex.
    - apply existsb_frontity_options in Hex. fold kept in Hex.
      by rewrite bool_decide_eq_true_2. }
  subst res. unfold RouterLifecycle.init.
  rewrite bool_decide_eq_false_2 by done. rewrite Hl.
  destruct (bool_decide (l = initialLink)); simpl; [done|].
  by destruct has_source_state.
Qed.

End RouterInitProperties.

Section SSRProperties.

Import Source.
Import RouterLifecycle.

Variable normalize : string → string.
Variable parse : string → RouteParams.
Variable getMatch : ∀ F : Type, string → list (Pattern F) → option (Match F).
Variable statusText_default : string → string.
Variable get : State → string → Obj.

Local Abbreviation fetch :=
  (Source.fetch normalize parse getMatch statusText_default).
Local Abbreviation handler_path := (Source.handler_path getMatch).
Local Abbreviation no_handler_error :=
  (Source.no_handler_error statusText_default).

(** [actions.source.fetch] as [beforeSSR] calls it: with the link only. *)
Local Abbreviation fetch_action libs :=
  (Some (λ (s : State) (l : string), fetch s libs l None)).

(** X19. Let [state.source.get] return the entry stored under the
    normalized link. When the fetch of the router's link ends in an error
    record, because no handler matches or the handler throws a
    [ServerError], [beforeSSR] returns normally and sets [ctx.status] to
    the status of the error: 404 without a matching handler. *)
Theorem beforeSSR_reports_error_status libs router st status st1 e :
  (∀ s l d, data s !! normalize l = Some d → get s l = d) →
  Router.autoFetch router = true →
  fetch_begin st (normalize (Router.link router))
    (parse (Router.link router)) (force_of None) = (st1, true) →
  (getMatch HandlerFunc
     (handler_path (parse (Router.link router)) (redirections libs))
     (handlers libs) = None
   ∧ e = no_handler_error (normalize (Router.link router)))
  ∨ (∃ h st2,
       getMatch HandlerFunc
         (handler_path (parse (Router.link router)) (redirections libs))
         (handlers libs) = Some h
       ∧ match_func h
           (handler_ctx (normalize (Router.link router)) h (force_of None))
           st1 = (Throw (ServerError e), st2)) →
  let r := beforeSSR get (fetch_action libs) router st status in
  ssr_outcome r = Normal
  ∧ ssr_status r = Some (VNum (se_status e))
  ∧ (getMatch HandlerFunc
       (handler_path (parse (Router.link router)) (redirections libs))
       (handlers libs) = None → ssr_status r = Some (VNum 404)).
Proof.
  intros Hget Hauto Hb Hcase r.
  assert (ssr_outcome r = Normal ∧ ssr_status r = Some (VNum (se_status e)))
    as [Hout Hstatus].
  { subst r. unfold beforeSSR. rewrite Hauto.
    assert (outcome (fetch st libs (Router.link router) None) = Normal
            ∧ data (final (fetch st libs (Router.link router) None))
                !! normalize (Router.link router)
              = Some (error_data e (normalize (Router.link router))
                        (parse (Router.link router)))) as [-> Hd].
    { destruct Hcase as [[Hm ->]|(h & st2 & Hm & Hc)].
      - rewrite (fetch_no_handler normalize parse getMatch statusText_default
                   _ _ _ _ st1) by done.
        cbn [outcome final]. by rewrite data_set_data.
      - rewrite (fetch_handler_throws normalize parse getMatch
                   statusText_default _ _ _ _ st1 h _ st2) by done.
        unfold fetch_catch. cbn [outcome final]. by rewrite data_set_data. }
    rewrite (Hget _ _ _ Hd). cbn [ssr_outcome ssr_status].
    destruct (error_data_fields e (normalize (Router.link router))
                (parse (Router.link router)))
      as (Herr & _ & _ & _ & Hs & _).
    unfold isError, is_true_value. by rewrite Herr, Hs. }
  repeat split; try done.
  intros Hnone. rewrite Hstatus.
  destruct Hcase as [[_ ->]|(h & st2 & Hm & _)]; [done|].
  by rewrite Hm in Hnone.
Qed.

(** X20. When the handler throws something that is not a [ServerError],
    [beforeSSR] throws it too and leaves [ctx.status] alone; the state is
    the one the handler left. *)
Theorem beforeSSR_rethrows libs router st status st1 h e st2 :
  Router.autoFetch router = true →
  fetch_begin st (normalize (Router.link router))
    (parse (Router.link router)) (force_of None) = (st1, true) →
  getMatch HandlerFunc
    (handler_path (parse (Router.link router)) (redirections libs))
    (handlers libs) = Some h →
  match_func h
    (handler_ctx (normalize (Router.link router)) h (force_of None)) st1
  = (Throw e, st2) →
  (∀ se, e ≠ ServerError se) →
  let r := beforeSSR get (fetch_action libs) router st status in
  ssr_outcome r = Throw e ∧ ssr_status r = status ∧ ssr_state r = st2.
Proof.
  intros Hauto Hb Hm Hc Hne r. subst r. unfold beforeSSR. rewrite Hauto.
  rewrite (fetch_handler_throws normalize parse getMatch statusText_default
             _ _ _ _ st1 h e st2) by done.
  by rewrite fetch_catch_rethrows.
Qed.

(** X21. Let [state.source.get] return the entry stored under the
    normalized link. When the handler resolves and the entry it leaves is
    no error, [beforeSSR] returns normally and leaves [ctx.status]
    alone. *)
Theorem beforeSSR_keeps_status_on_success
    libs router st status st1 h st2 d :
  (∀ s l d, data s !! normalize l = Some d → get s l = d) →
  Router.autoFetch router = true →
  fetch_begin st (normalize (Router.link router))
    (parse (Router.link router)) (force_of None) = (st1, true) →
  getMatch HandlerFunc
    (handler_path (parse (Router.link router)) (redirections libs))
    (handlers libs) = Some h →
  match_func h
    (handler_ctx (normalize (Router.link router)) h (force_of None)) st1
  = (Normal, st2) →
  data st2 !! normalize (Router.link router) = Some d →
  isError d = false →
  let r := beforeSSR get (fetch_action libs) router st status in
  ssr_outcome r = Normal ∧ ssr_status r = status.
Proof.
  intros Hget Hauto Hb Hm Hc Hd He r. subst r. unfold beforeSSR.
  rewrite Hauto.
  rewrite (fetch_handler_resolves normalize parse getMatch statusText_default
             _ _ _ _ st1 h st2 d) by done.
  cbn [outcome final].
  rewrite (Hget _ _ _ (data_set_data _ _ _)).
  unfold isError.
  rewrite (ready_props_other normalize parse statusText_default d _ "isError")
    by compute_done.
  fold (isError d). by rewrite He.
Qed.

End SSRProperties.

(** * The actions on concrete inputs *)

Section Examples.

Import Source.
Import RouterLifecycle.
Import Example.

(** A repeated fetch rewrites the entry: after a first fetch through a
    handler that replaced the entry, the second call adds [route],
    [link], [query] and [page] to it. *)
Lemma repeated_fetch_mutates_entry :
  ¬ Stated.repeated_fetch_is_noop normalize parse getMatch statusText_default
      (final fetched_once) (about_libs replacing_handler) "/about/".
Proof.
  intros H.
  destruct (H entry_once) as (_ & _ & Hsame).
  - vm_compute. reflexivity.
  - right. split; vm_compute; reflexivity.
  - apply (f_equal (λ o, o ≫= (.!! "route"))) in Hsame.
    vm_compute in Hsame. discriminate.
Qed.

(** The second of two unforced fetches of ["/about/"] invokes nothing. *)
Lemma fetch_deduplicates_witness :
  truthy_bool (force_of None) = false
  ∧ data (final fetched_once) !! normalize "/about/" = Some entry_once
  ∧ outcome (fetch (final fetched_once) (about_libs replacing_handler)
               "/about/" None) = Normal
  ∧ invoked (fetch (final fetched_once) (about_libs replacing_handler)
               "/about/" None) = [].
Proof.
  assert (truthy_bool (force_of None) = false) as Hf by reflexivity.
  assert (data (final fetched_once) !! normalize "/about/" = Some entry_once)
    as Hd by (vm_compute; reflexivity).
  destruct (fetch_deduplicates normalize parse getMatch statusText_default
              (final fetched_once) (about_libs replacing_handler) "/about/"
              None entry_once Hf Hd) as (Hout & Hinv & _).
  - vm_compute. reflexivity.
  - exact (conj Hf (conj Hd (conj Hout Hinv))).
Defined.


(** With the reverse subdirectory rule in place, the route handed to the
    handlers for ["/about/"] is the empty string, not ["/about/"]. *)
Lemma empty_redirection_replaces_route :
  ¬ Stated.empty_redirection_keeps_route parse getMatch blog_libs "/about/".
Proof.
  intros H. specialize (H reverse_match eq_refl eq_refl).
  vm_compute in H. discriminate.
Qed.

(** On that site the fetch of ["/about/"] ends in a 404 entry, and the
    handler registered for ["/about/"] is not invoked. *)
Example reverse_rule_gives_404 :
  invoked (fetch empty_state blog_libs "/about/" None) = []
  ∧ data (final (fetch empty_state blog_libs "/about/" None)) !! "/about/"
      ≫= (.!! "is404") = Some (VBool true).
Proof. split; vm_compute; reflexivity. Qed.

(** The reverse rule matches ["/about/"] and turns the path to match into
    the empty string. *)
Lemma empty_redirection_is_the_route_witness :
  getMatch RedirectionFunc (rp_route (parse "/about/"))
    (redirections blog_libs) = Some reverse_match
  ∧ Source.handler_path getMatch (parse "/about/") (redirections blog_libs)
    = "".
Proof.
  assert (getMatch RedirectionFunc (rp_route (parse "/about/"))
            (redirections blog_libs) = Some reverse_match) as Hr
    by reflexivity.
  split; [exact Hr|].
  exact (proj1 (empty_redirection_is_the_route normalize parse getMatch
                  statusText_default empty_state blog_libs "/about/" None
                  reverse_match Hr eq_refl)).
Defined.

(** A handler that throws the 500 error leaves the error record under the
    link. *)
Lemma fetch_error_replaces_entry_witness :
  Source.fetch_begin empty_state (normalize "/about/") (parse "/about/")
    (force_of None) = (about_begun, true)
  ∧ data (final (fetch empty_state (about_libs server_error_handler)
                   "/about/" None)) !! normalize "/about/"
    = Some (error_data error_500 (normalize "/about/") (parse "/about/")).
Proof.
  assert (Source.fetch_begin empty_state (normalize "/about/")
            (parse "/about/") (force_of None) = (about_begun, true)) as Hb
    by (vm_compute; reflexivity).
  split; [exact Hb|].
  refine (proj1 (proj2 (fetch_error_replaces_entry normalize parse getMatch
                          statusText_default empty_state
                          (about_libs server_error_handler) "/about/" None
                          about_begun error_500 Hb _))).
  right. exists (about_match server_error_handler), about_begun.
  split; reflexivity.
Defined.

(** A handler that throws another error: [fetch] throws it too and leaves
    the state it gave to the handler. *)
Lemma fetch_rethrows_unclassified_witness :
  (∀ se, OtherError "network down" ≠ ServerError se)
  ∧ outcome (fetch empty_state (about_libs failing_handler) "/about/" None)
    = Throw (OtherError "network down")
  ∧ final (fetch empty_state (about_libs failing_handler) "/about/" None)
    = about_begun.
Proof.
  assert (∀ se, OtherError "network down" ≠ ServerError se) as Hne
    by (intros se; discriminate).
  split; [exact Hne|].
  destruct (fetch_rethrows_unclassified normalize parse getMatch
              statusText_default empty_state (about_libs failing_handler)
              "/about/" None about_begun (about_match failing_handler)
              (OtherError "network down") about_begun) as (Hout & Hfin & _).
  - vm_compute. reflexivity.
  - reflexivity.
  - reflexivity.
  - exact Hne.
  - exact (conj Hout Hfin).
Defined.

(** A handler that flags its entry as home keeps the flag although the
    route ["/about/"] is not the root. *)
Lemma isHome_set_off_root :
  ¬ Stated.isHome_iff_root normalize parse getMatch statusText_default
      empty_state (about_libs landing_handler) "/about/" None.
Proof.
  intros H.
  destruct (data (final (fetch empty_state (about_libs landing_handler)
                           "/about/" None)) !! normalize "/about/")
    as [d'|] eqn:Hd'; [|vm_compute in Hd'; discriminate].
  specialize (H about_begun (about_match landing_handler)
                (landing_handler
                   (handler_ctx "/about/" (about_match landing_handler)
                      (Some false)) about_begun).2 d').
  destruct H as [H _]; [vm_compute; reflexivity|reflexivity|reflexivity
                        |exact Hd'|].
  vm_compute in Hd'. injection Hd' as <-.
  destruct H as (Hroute & _); [vm_compute; reflexivity|].
  vm_compute in Hroute. discriminate.
Qed.

(** The landing handler flags its entry as home, and the flag stays. *)
Lemma fetch_success_isHome_witness :
  ∃ d', data (final (fetch empty_state (about_libs landing_handler)
                       "/about/" None)) !! normalize "/about/" = Some d'
        ∧ d' !! "isHome" = Some (VBool true).
Proof.
  destruct (fetch_success_isHome normalize parse getMatch statusText_default
              empty_state (about_libs landing_handler) "/about/" None
              about_begun (about_match landing_handler)
              (landing_handler
                 (handler_ctx "/about/" (about_match landing_handler)
                    (Some false)) about_begun).2
              (assign (init_data "/about/" (parse "/about/"))
                 [("isPostType", VBool true); ("isHome", VBool true)]))
    as (d' & Hd' & Hiff).
  - vm_compute. reflexivity.
  - reflexivity.
  - reflexivity.
  - vm_compute. reflexivity.
  - exists d'. split; [exact Hd'|].
    apply Hiff. right. vm_compute. reflexivity.
Defined.

(** [init] on the movie configuration, starting without handlers,
    registers two. *)
Lemma init_registers_post_types_witness :
  length (handlers (init None movie_state (with_handlers [])).2) = 2.
Proof.
  destruct (init_registers_post_types concatLink valid_URL error [] []
              (λ _, idle_handler) (λ _ _, idle_handler)
              (λ _ _, idle_handler) (λ _, idle_handler)
              None movie_state (with_handlers [])
              (init None movie_state (with_handlers [])).1.2
              (init None movie_state (with_handlers [])).2)
    as (groups & added & Hhs & _ & Hlen & Hmovie).
  - reflexivity.
  - rewrite Hhs, (Hmovie eq_refl).
    destruct added; [reflexivity|discriminate Hlen].
Defined.

(** In pop mode no fetch is triggered although [autoFetch] is on. *)
Lemma set_pop_triggers_no_fetch :
  ¬ Stated.set_as_specified (Some normalize) true client_router "/about/"
      (Some pop_options).
Proof.
  intros (_ & _ & Hfetch & _). specialize (Hfetch eq_refl).
  simpl in Hfetch. by apply elem_of_nil in Hfetch.
Qed.

(** Two fetches whose handler throws an error that is no [ServerError].
    A forced fetch of a ready entry, with a handler that writes nothing,
    leaves the entry with [isReady = true]. A first fetch with a handler
    that has replaced the entry by an empty object leaves it without
    [isFetching]. *)
Lemma throw_can_leave_entry_ready_or_unflagged :
  ¬ Stated.throw_leaves_entry_unsettled normalize parse getMatch
      statusText_default (final fetched_once) (about_libs failing_handler)
      "/about/" forced
  ∧ ¬ Stated.throw_leaves_entry_unsettled normalize parse getMatch
        statusText_default empty_state
        (about_libs clearing_failing_handler) "/about/" None.
Proof.
  split.
  - intros H.
    destruct (H (final (fetch (final fetched_once)
                          (about_libs failing_handler) "/about/" forced))
                (about_match failing_handler) (OtherError "network down")
                (final (fetch (final fetched_once)
                          (about_libs failing_handler) "/about/" forced)))
      as [(d & Hd & _ & Hready) _].
    + vm_compute. reflexivity.
    + reflexivity.
    + vm_compute. reflexivity.
    + intros se. discriminate.
    + vm_compute in Hd. injection Hd as <-.
      vm_compute in Hready. discriminate.
  - intros H.
    destruct (H about_begun (about_match clearing_failing_handler)
                (OtherError "network down")
                (set_data about_begun "/about/" ∅))
      as [(d & Hd & Hfetching & _) _].
    + vm_compute. reflexivity.
    + reflexivity.
    + reflexivity.
    + intros se. discriminate.
    + vm_compute in Hd. injection Hd as <-.
      vm_compute in Hfetching. discriminate.
Qed.

(** With that second handler every unforced fetch of ["/about/"] invokes
    the handler again: the entry it leaves has neither flag set. *)
Example unforced_fetches_may_repeat :
  length (invoked (fetch empty_state (about_libs clearing_failing_handler)
                     "/about/" None)) = 1%nat
  ∧ length (invoked
              (fetch (final (fetch empty_state
                               (about_libs clearing_failing_handler)
                               "/about/" None))
                 (about_libs clearing_failing_handler) "/about/" None))
    = 1%nat.
Proof. split; vm_compute; reflexivity. Qed.

(** After the handler threw, the entry is still fetching and the next
    unforced fetch invokes nothing. *)
Lemma fetch_throw_leaves_entry_fetching_witness :
  data (final (fetch empty_state (about_libs failing_handler) "/about/" None))
    !! normalize "/about/" ≫= (.!! "isFetching") = Some (VBool true)
  ∧ invoked (fetch (final (fetch empty_state (about_libs failing_handler)
                             "/about/" None))
               (about_libs idle_handler) "/about/" None) = [].
Proof.
  destruct (fetch_throw_leaves_entry_fetching normalize parse getMatch
              statusText_default empty_state (about_libs failing_handler)
              "/about/" None about_begun (about_match failing_handler)
              (OtherError "network down") about_begun)
    as (_ & (d & Hd & Hfetching & _) & Hlater).
  - vm_compute. reflexivity.
  - reflexivity.
  - reflexivity.
  - intros se. discriminate.
  - intros d1 Hd1. exists d1. split; [exact Hd1|split; reflexivity].
  - split.
    + unfold fetch. rewrite Hd. exact Hfetching.
    + exact (proj2 (Hlater (about_libs idle_handler) "/about/" None
                      eq_refl eq_refl)).
Defined.

(** The properties written by the replacing handler are in the ready
    entry. *)
Lemma fetch_success_merges_witness :
  ∃ d', data (final (fetch empty_state (about_libs replacing_handler)
                       "/about/" None)) !! normalize "/about/" = Some d'
        ∧ d' !! "id" = Some (VNum 7)
        ∧ d' !! "isReady" = Some (VBool true).
Proof.
  destruct (fetch_success_merges normalize parse getMatch statusText_default
              empty_state (about_libs replacing_handler) "/about/" None
              about_begun (about_match replacing_handler)
              (replacing_handler
                 (handler_ctx "/about/" (about_match replacing_handler)
                    (Some false)) about_begun).2
              (literal [("isPostType", VBool true); ("id", VNum 7)]))
    as (_ & d' & Hd' & _ & Hready & _ & Hkeep).
  - vm_compute. reflexivity.
  - reflexivity.
  - reflexivity.
  - vm_compute. reflexivity.
  - exists d'. split; [exact Hd'|]. split; [|exact Hready].
    rewrite Hkeep; [vm_compute; reflexivity|compute_done].
Defined.

(** The first fetch of ["/about/"] through the replacing handler leaves a
    settled entry. *)
Lemma fetch_returns_settled_witness :
  ∃ d, data (final fetched_once) !! normalize "/about/" = Some d
       ∧ d !! "isFetching" = Some (VBool false)
       ∧ d !! "isReady" = Some (VBool true).
Proof.
  apply (fetch_returns_settled normalize parse getMatch statusText_default
           empty_state (about_libs replacing_handler) "/about/" None
           about_begun).
  - vm_compute. reflexivity.
  - vm_compute. reflexivity.
Defined.

(** Two fetches of ["/about/"] in a row call a handler once. *)
Lemma fetch_twice_invokes_once_witness :
  invoked (fetch (final fetched_once) (about_libs idle_handler) "/about/"
             None) = []
  ∧ (length (invoked fetched_once) ≤ 1)%nat.
Proof.
  apply (fetch_twice_invokes_once normalize parse getMatch statusText_default
           empty_state (about_libs replacing_handler) (about_libs idle_handler)
           "/about/" None None).
  - vm_compute. reflexivity.
  - reflexivity.
Defined.

(** Without handlers the fetch of ["/about/"] leaves that link, and no
    other, in the empty cache. *)
Lemma fetch_without_handler_keeps_links_witness :
  invoked (fetch empty_state (with_handlers []) "/about/" None) = []
  ∧ dom (data (final (fetch empty_state (with_handlers []) "/about/" None)))
    = {[normalize "/about/"]} ∪ dom (data empty_state).
Proof.
  assert (invoked (fetch empty_state (with_handlers []) "/about/" None) = [])
    as Hinv by reflexivity.
  split; [exact Hinv|].
  exact (proj2 (fetch_without_handler_keeps_links normalize parse getMatch
                  statusText_default empty_state (with_handlers [])
                  "/about/" None Hinv)).
Defined.

(** After the fetch of ["/about/"] through the replacing handler the cache
    holds no link besides those the handler left and ["/about/"]. *)
Lemma fetch_with_handler_keeps_links_witness :
  dom (data (final (fetch empty_state (about_libs replacing_handler)
                      "/about/" None)))
  ⊆ {[normalize "/about/"]}
    ∪ dom (data (replacing_handler
                   (handler_ctx "/about/" (about_match replacing_handler)
                      (Some false)) about_begun).2).
Proof.
  refine (proj2 (proj2 (proj2 (proj2
            (fetch_with_handler_keeps_links normalize parse getMatch
               statusText_default empty_state (about_libs replacing_handler)
               "/about/" None about_begun (about_match replacing_handler)
               Normal
               (replacing_handler
                  (handler_ctx "/about/" (about_match replacing_handler)
                     (Some false)) about_begun).2 _ _ _))))).
  - vm_compute. reflexivity.
  - reflexivity.
  - reflexivity.
Defined.


(** A handler that removes the entry makes the fetch throw, and the entry
    stays absent. *)
Lemma fetch_removed_entry_throws_witness :
  (∃ message,
     outcome (fetch empty_state (about_libs removing_handler) "/about/" None)
     = Throw (TypeError message))
  ∧ data (final (fetch empty_state (about_libs removing_handler) "/about/"
                   None)) !! normalize "/about/" = None.
Proof.
  destruct (fetch_removed_entry_throws normalize parse getMatch
              statusText_default empty_state (about_libs removing_handler)
              "/about/" None about_begun (about_match removing_handler)
              (removing_handler
                 (handler_ctx "/about/" (about_match removing_handler)
                    (Some false)) about_begun).2) as [Hout Hfin].
  - vm_compute. reflexivity.
  - reflexivity.
  - reflexivity.
  - vm_compute. reflexivity.
  - split; [exact Hout|]. unfold fetch. rewrite Hfin.
    vm_compute. reflexivity.
Defined.

(** The third fetch of ["/about/"] gives what the second gave. *)
Lemma fetch_skip_idempotent_witness :
  fetch (final (fetch (final fetched_once) (about_libs idle_handler)
                  "/about/" None))
    (about_libs failing_handler) "/about/" None
  = fetch (final fetched_once) (about_libs idle_handler) "/about/" None.
Proof.
  apply (fetch_skip_idempotent normalize parse getMatch statusText_default
           (final fetched_once) (about_libs idle_handler)
           (about_libs failing_handler) "/about/" None None entry_once).
  - reflexivity.
  - reflexivity.
  - vm_compute. reflexivity.
  - vm_compute. reflexivity.
Defined.

(** After the 404 of a site without handlers, a fetch of ["/about/"] with
    a handler registered meanwhile still invokes nothing. *)
Lemma fetch_error_is_sticky_witness :
  invoked (fetch (final (fetch empty_state (with_handlers []) "/about/" None))
             (about_libs idle_handler) "/about/" None) = [].
Proof.
  unfold fetch.
  rewrite (fetch_error_is_sticky normalize parse getMatch statusText_default
             empty_state (with_handlers []) (about_libs idle_handler)
             "/about/" None None about_begun
             (Source.no_handler_error statusText_default
                (normalize "/about/"))).
  - reflexivity.
  - vm_compute. reflexivity.
  - left. split; reflexivity.
  - reflexivity.
Defined.

(** [init] on the blog site stores the token of the frontity options and
    leaves the cache empty. *)
Lemma init_writes_only_auth_witness :
  auth (init None blog_state (with_handlers [])).1.2 = Some "token"
  ∧ data (init None blog_state (with_handlers [])).1.2 = ∅.
Proof.
  destruct (init_writes_only_auth concatLink valid_URL error [] []
              (λ _, idle_handler) (λ _ _, idle_handler)
              (λ _ _, idle_handler) (λ _, idle_handler)
              None blog_state (with_handlers [])
              (init None blog_state (with_handlers [])).1.2
              (init None blog_state (with_handlers [])).2)
    as (_ & Hdata & Hauth & _).
  - reflexivity.
  - split; [exact (Hauth eq_refl)|exact Hdata].
Defined.

(** On the blog site [init] registers three entries for the post type with
    an archive and one for the taxonomy. *)
Lemma init_handlers_count_witness :
  length (handlers (init None blog_state (with_handlers [])).2) = 4%nat.
Proof.
  exact (proj2 (init_handlers_count concatLink valid_URL error [] []
                  (λ _, idle_handler) (λ _ _, idle_handler)
                  (λ _ _, idle_handler) (λ _, idle_handler)
                  None blog_state (with_handlers [])
                  (init None blog_state (with_handlers [])).1.2
                  (init None blog_state (with_handlers [])).2 eq_refl)).
Defined.

(** The last handler of the blog site is the one of the taxonomy. *)
Lemma init_taxonomy_entries_witness :
  ∃ before,
    name <$> handlers (init None blog_state (with_handlers [])).2
    = (before ++ ["genre"])%list.
Proof.
  destruct (init_taxonomy_entries concatLink valid_URL error [] []
              (λ _, idle_handler) (λ _ _, idle_handler)
              (λ _ _, idle_handler) (λ _, idle_handler)
              None blog_state (with_handlers [])
              (init None blog_state (with_handlers [])).1.2
              (init None blog_state (with_handlers [])).2 eq_refl)
    as (before & Hhs).
  exists (name <$> before). rewrite Hhs, fmap_app. reflexivity.
Defined.

(** The blog site gets four redirections: the pairs of the category base
    and of the subdirectory. *)
Lemma init_redirections_witness :
  length (redirections (init None blog_state (with_handlers [])).2) = 4%nat.
Proof.
  destruct (init_redirections concatLink valid_URL error [] []
              (λ _, idle_handler) (λ _ _, idle_handler)
              (λ _ _, idle_handler) (λ _, idle_handler)
              None blog_state (with_handlers [])
              (init None blog_state (with_handlers [])).1.2
              (init None blog_state (with_handlers [])).2 eq_refl)
    as (added & Hrs & _ & Hlen).
  rewrite Hrs, length_app, Hlen. reflexivity.
Defined.

(** On the blog site the forward subdirectory rule sends the subpath
    ["page/2"] to ["/page/2/"]. *)
Lemma init_subdirectory_rules_witness :
  ∃ earlier forward reverse,
    redirections (init None blog_state (with_handlers [])).2
    = (earlier ++ [forward; reverse])%list
    ∧ func forward {["subpath" := "page/2"]} = "/page/2/"
    ∧ func reverse {["subpath" := "page/2"]} = "".
Proof.
  destruct (init_subdirectory_rules concatLink valid_URL error [] []
              (λ _, idle_handler) (λ _ _, idle_handler)
              (λ _ _, idle_handler) (λ _, idle_handler)
              None blog_state (with_handlers [])
              (init None blog_state (with_handlers [])).1.2
              (init None blog_state (with_handlers [])).2 eq_refl eq_refl)
    as (earlier & forward & reverse & Hrs & _ & Hforward & _ & Hreverse).
  exists earlier, forward, reverse. split; [exact Hrs|].
  split; [|apply Hreverse].
  destruct (Hforward {["subpath" := "page/2"]}) as (_ & _ & _ & Hs).
  apply (Hs "page/2"); [reflexivity|discriminate].
Defined.

(** After [init] and [afterSSR] the blog site holds no token. *)
Lemma afterSSR_removes_tokens_witness :
  auth (afterSSR (init None blog_state (with_handlers [])).1.2) = None
  ∧ sourceAuth (afterSSR (init None blog_state (with_handlers [])).1.2)
    = None.
Proof.
  destruct (afterSSR_removes_tokens concatLink valid_URL error [] []
              (λ _, idle_handler) (λ _ _, idle_handler)
              (λ _ _, idle_handler) (λ _, idle_handler)
              None blog_state (with_handlers [])
              (init None blog_state (with_handlers [])).1.2
              (init None blog_state (with_handlers [])).2 eq_refl)
    as (_ & Hauth & Htoken & _).
  exact (conj Hauth Htoken).
Defined.

(** On the client the frontity option is dropped from the address, and the
    router takes the remaining link. *)
Lemma router_init_client_witness :
  Router.platform client_router ≠ "server"
  ∧ Router.link (router_init (Some normalize) "/" true address client_router).1
    = "/about/?page=2".
Proof.
  assert (Router.platform client_router ≠ "server") as Hclient
    by discriminate.
  split; [exact Hclient|].
  destruct (router_init_client parse_query serialize_query (Some normalize)
              "/" true address client_router Hclient)
    as (_ & _ & Hlink & _).
  unfold router_init. rewrite Hlink. vm_compute. reflexivity.
Defined.

(** On a site without handlers [beforeSSR] sets the status to 404. *)
Lemma beforeSSR_reports_error_status_witness :
  ssr_status (RouterLifecycle.beforeSSR get
                (Some (λ s l, fetch s (with_handlers []) l None))
                about_router empty_state None)
  = Some (VNum 404).
Proof.
  destruct (beforeSSR_reports_error_status normalize parse getMatch
              statusText_default get (with_handlers []) about_router
              empty_state None about_begun
              (Source.no_handler_error statusText_default
                 (normalize "/about/")))
    as (_ & _ & H404).
  - intros s l d Hd. unfold get. by rewrite Hd.
  - reflexivity.
  - vm_compute. reflexivity.
  - left. split; reflexivity.
  - apply H404. reflexivity.
Defined.

(** A handler that throws makes [beforeSSR] throw and keeps the status. *)
Lemma beforeSSR_rethrows_witness :
  ssr_outcome (RouterLifecycle.beforeSSR get
                 (Some (λ s l, fetch s (about_libs failing_handler) l None))
                 about_router empty_state (Some (VNum 200)))
  = Throw (OtherError "network down")
  ∧ ssr_status (RouterLifecycle.beforeSSR get
                  (Some (λ s l, fetch s (about_libs failing_handler) l None))
                  about_router empty_state (Some (VNum 200)))
    = Some (VNum 200).
Proof.
  destruct (beforeSSR_rethrows normalize parse getMatch statusText_default
              get (about_libs failing_handler) about_router empty_state
              (Some (VNum 200)) about_begun (about_match failing_handler)
              (OtherError "network down") about_begun)
    as (Hout & Hstatus & _).
  - reflexivity.
  - vm_compute. reflexivity.
  - reflexivity.
  - reflexivity.
  - intros se. discriminate.
  - exact (conj Hout Hstatus).
Defined.

(** A handler that succeeds keeps the status. *)
Lemma beforeSSR_keeps_status_on_success_witness :
  ssr_status (RouterLifecycle.beforeSSR get
                (Some (λ s l, fetch s (about_libs replacing_handler) l None))
                about_router empty_state (Some (VNum 200)))
  = Some (VNum 200).
Proof.
  refine (proj2 (beforeSSR_keeps_status_on_success normalize parse getMatch
                   statusText_default get (about_libs replacing_handler)
                   about_router empty_state (Some (VNum 200)) about_begun
                   (about_match replacing_handler)
                   (replacing_handler
                      (handler_ctx "/about/" (about_match replacing_handler)
                         (Some false)) about_begun).2
                   (literal [("isPostType", VBool true); ("id", VNum 7)])
                   _ _ _ _ _ _ _)).
  - intros s l d Hd. unfold get. by rewrite Hd.
  - reflexivity.
  - vm_compute. reflexivity.
  - reflexivity.
  - reflexivity.
  - vm_compute. reflexivity.
  - vm_compute. reflexivity.
Defined.

End Examples.
